(** * DiagnosticAI: the conversation controller of the web front end

    A shallow embedding of [App] (the React component holding the whole
    conversation state, its four handlers and its render function) and of
    [apiEndpoints] (services/api.js), followed by the properties of the
    controller that the specification states.

    Conventions of the embedding:
    - a JavaScript value that comes out of a JSON body is a [JsVal];
    - a JavaScript string is a [string], one character per code unit
      (the code units below 256);
    - a JavaScript number is modelled where it is an integer in the safe
      range, as a [Z];
    - React state is a record; a handler reads the values captured by its
      closure (the state of the render that created it) and writes through
      the setters, which are applied in program order;
    - an [async] handler is run to completion: the awaited request settles
      to what the network of that moment answers; module [Async] splits
      the handlers at their [await] and lets requests settle later;
    - a render is the component function followed by React going through
      the values that the returned elements have in child position; of the
      research block of the Complete screen only the presence is modelled,
      not its inner items;
    - [alert] and [axios.post] are recorded in an effect log; the console
      traces and [e.preventDefault()] are left out;
    - the browser's own checks on the forms ([required], [maxLength]) are
      not modelled: the session model lets the user submit or type more
      than the page would. *)

From Stdlib Require Import ZArith Ascii.
From stdpp Require Import gmap strings list pretty.

Local Open Scope nat_scope.

(** ** JavaScript values *)

Module Js.

#[local] Set Warnings "-register-all".

Inductive JsVal : Type :=
| JUndefined
| JNull
| JBool (b : bool)
| JNum (z : Z)
| JStr (s : string)
| JArr (elems : list JsVal)
| JObj (props : list (string * JsVal)).

(** The empty object literal [{}] and the empty array literal [[]]. *)
Definition emptyObject : JsVal := JObj [].
Definition emptyArray : JsVal := JArr [].

(** ToBoolean: what [if (v)], [!v], [v && ...] and [v || ...] test. *)
Definition truthy (v : JsVal) : bool :=
  match v with
  | JUndefined | JNull => false
  | JBool b => b
  | JNum z => negb (z =? 0)%Z
  | JStr s => negb (String.eqb s "")
  | JArr _ | JObj _ => true
  end.

(** [a || b] *)
Definition orElse (a b : JsVal) : JsVal := if truthy a then a else b.

(** [v === 'lit'] for a string literal. *)
Definition strictEqString (v : JsVal) (lit : string) : bool :=
  match v with
  | JStr s => String.eqb s lit
  | _ => false
  end.

(** Own property of an object literal or of a parsed JSON object: the first
    binding of the key. *)
Fixpoint assoc (k : string) (props : list (string * JsVal)) : option JsVal :=
  match props with
  | [] => None
  | (k', v) :: rest => if String.eqb k k' then Some v else assoc k rest
  end.

(** [v.name] on a value that is neither [undefined] nor [null], for the
    property names that this program reads (data fields and [length]; none
    of them is an array index or a prototype method). *)
Definition prop (v : JsVal) (name : string) : JsVal :=
  match v with
  | JObj props => default JUndefined (assoc name props)
  | JArr elems => if String.eqb name "length" then JNum (Z.of_nat (length elems)) else JUndefined
  | JStr s => if String.eqb name "length" then JNum (Z.of_nat (String.length s)) else JUndefined
  | _ => JUndefined
  end.

Definition nullish (v : JsVal) : bool :=
  match v with
  | JUndefined | JNull => true
  | _ => false
  end.

(** [Array.prototype.join] on strings. *)
Fixpoint joinStrings (sep : string) (parts : list string) : string :=
  match parts with
  | [] => ""
  | [p] => p
  | p :: rest => p +:+ sep +:+ joinStrings sep rest
  end.

(** ToString, as applied by template literals and by [join] to the elements
    of an array. *)
Fixpoint toString (v : JsVal) : string :=
  match v with
  | JUndefined => "undefined"
  | JNull => "null"
  | JBool true => "true"
  | JBool false => "false"
  | JNum z => pretty z
  | JStr s => s
  | JArr elems =>
      joinStrings ","
        (map (fun e => if nullish e then "" else toString e) elems)
  | JObj _ => "[object Object]"
  end.

(** The string [join] turns one array element into. *)
Definition joinElement (e : JsVal) : string :=
  if nullish e then "" else toString e.

(** [elems.join(sep)] *)
Definition join (sep : string) (elems : list JsVal) : string :=
  joinStrings sep (map joinElement elems).

(** *** [String.prototype.trim] *)

(** WhiteSpace and LineTerminator code units below 256: TAB, LF, VT, FF, CR,
    SP and NBSP. *)
Definition isWhiteSpace (c : ascii) : bool :=
  existsb (Nat.eqb (nat_of_ascii c)) [9; 10; 11; 12; 13; 32; 160].

Fixpoint trimStart (s : string) : string :=
  match s with
  | EmptyString => EmptyString
  | String c rest => if isWhiteSpace c then trimStart rest else s
  end.

Fixpoint trimEnd (s : string) : string :=
  match s with
  | EmptyString => EmptyString
  | String c rest =>
      match trimEnd rest with
      | EmptyString => if isWhiteSpace c then EmptyString else String c EmptyString
      | kept => String c kept
      end
  end.

Definition trim (s : string) : string := trimEnd (trimStart s).

(** *** Errors and results *)

(** What a [catch] clause of this program can receive. The handlers look at
    [error.response] and [error.request] only. *)
Inductive JsError : Type :=
| TypeError                 (* property read on undefined/null, call of a non-function *)
| HttpError (data : JsVal)  (* axios: the server answered outside 2xx; error.response.data *)
| NoResponse                (* axios: error.request set, no error.response *)
| OtherError.               (* anything else: neither field is set *)

Inductive Res (A : Type) : Type :=
| Ok (a : A)
| Throw (e : JsError).
Arguments Ok {A} a.
Arguments Throw {A} e.

#[export] Instance Res_ret : MRet Res := fun _ a => Ok a.
#[export] Instance Res_bind : MBind Res := fun _ _ f r =>
  match r with
  | Ok a => f a
  | Throw e => Throw e
  end.

(** [v.name], with the TypeError of a read on [undefined] or [null]. *)
Definition member (v : JsVal) (name : string) : Res JsVal :=
  if nullish v then Throw TypeError else Ok (prop v name).

(** [v.join(sep)]: only an array has the method. *)
Definition callJoin (v : JsVal) (sep : string) : Res string :=
  match v with
  | JArr elems => Ok (join sep elems)
  | _ => Throw TypeError
  end.

End Js.
Export Js.

(** ** The state of [App] *)

(** One field per [useState] of the component. [questionAnswers] is the
    object keyed by question index; its values come from [e.target.value]
    and are strings. *)
Record State : Type := mkState {
  symptoms : string;
  charCount : nat;
  isLoading : bool;
  conversationComplete : bool;
  followUpQuestions : JsVal;
  threadId : string;
  questionAnswers : gmap nat string;
  extractedData : JsVal;
  showExtractedData : bool;
  webResearchResults : JsVal
}.

(** The first render: every [useState] initialiser. [now] is the reading of
    [Date.now()] taken by the lazy initialiser of [threadId]. *)
Definition initialState (now : Z) : State := {|
  symptoms := "";
  charCount := 0;
  isLoading := false;
  conversationComplete := false;
  followUpQuestions := JArr [];
  threadId := "thread_" +:+ toString (JNum now);
  questionAnswers := ∅;
  extractedData := JObj [];
  showExtractedData := false;
  webResearchResults := JObj []
|}.

(** ** Effects and the handler monad *)

Inductive Effect : Type :=
| Alert (message : string)
| Post (url : string) (body : JsVal).

(** A settled axios promise: the [data] of a 2xx response, or the error the
    promise rejects with. *)
Inductive Outcome : Type :=
| Resolved (data : JsVal)
| Rejected (error : JsError).

(** The network as the page sees it: what a POST of [body] to [url] settles
    to. *)
Definition Net : Type := string -> JsVal -> Outcome.

(** A handler body: it runs against the current state, may throw, and leaves
    a state and the effects it performed, oldest first. *)
Definition M (A : Type) : Type := State -> Res A * State * list Effect.

#[export] Instance M_ret : MRet M := fun _ a s => (Ok a, s, []).
#[export] Instance M_bind : MBind M := fun _ _ f m s =>
  match m s with
  | (Ok a, s1, log1) =>
      match f a s1 with
      | (r, s2, log2) => (r, s2, log1 ++ log2)
      end
  | (Throw e, s1, log1) => (Throw e, s1, log1)
  end.

Definition throw {A : Type} (e : JsError) : M A := fun s => (Throw e, s, []).

Definition liftRes {A : Type} (r : Res A) : M A := fun s => (r, s, []).

Definition perform (e : Effect) : M unit := fun s => (Ok (), s, [e]).

Definition alert (message : string) : M unit := perform (Alert message).

(** [try { body } catch (error) { handler error } finally { fin }] *)
Definition tryCatchFinally (body : M unit) (handler : JsError -> M unit)
    (fin : M unit) : M unit := fun s =>
  let '(r1, s1, log1) := body s in
  let '(r2, s2, log2) :=
    match r1 with
    | Ok _ => (r1, s1, [])
    | Throw e => handler e s1
    end in
  let '(r3, s3, log3) := fin s2 in
  (match r3 with Ok _ => r2 | Throw _ => r3 end, s3, log1 ++ log2 ++ log3).

(** *** The setters *)

(** The state with one field replaced. There is none for [threadId]: its
    [useState] call keeps the value and drops the setter. *)
Definition withSymptoms (v : string) (s : State) : State :=
  mkState v (charCount s) (isLoading s) (conversationComplete s)
          (followUpQuestions s) (threadId s) (questionAnswers s)
          (extractedData s) (showExtractedData s) (webResearchResults s).

Definition withCharCount (v : nat) (s : State) : State :=
  mkState (symptoms s) v (isLoading s) (conversationComplete s)
          (followUpQuestions s) (threadId s) (questionAnswers s)
          (extractedData s) (showExtractedData s) (webResearchResults s).

Definition withIsLoading (v : bool) (s : State) : State :=
  mkState (symptoms s) (charCount s) v (conversationComplete s)
          (followUpQuestions s) (threadId s) (questionAnswers s)
          (extractedData s) (showExtractedData s) (webResearchResults s).

Definition withConversationComplete (v : bool) (s : State) : State :=
  mkState (symptoms s) (charCount s) (isLoading s) v
          (followUpQuestions s) (threadId s) (questionAnswers s)
          (extractedData s) (showExtractedData s) (webResearchResults s).

Definition withFollowUpQuestions (v : JsVal) (s : State) : State :=
  mkState (symptoms s) (charCount s) (isLoading s) (conversationComplete s)
          v (threadId s) (questionAnswers s)
          (extractedData s) (showExtractedData s) (webResearchResults s).

Definition withQuestionAnswers (v : gmap nat string) (s : State) : State :=
  mkState (symptoms s) (charCount s) (isLoading s) (conversationComplete s)
          (followUpQuestions s) (threadId s) v
          (extractedData s) (showExtractedData s) (webResearchResults s).

Definition withExtractedData (v : JsVal) (s : State) : State :=
  mkState (symptoms s) (charCount s) (isLoading s) (conversationComplete s)
          (followUpQuestions s) (threadId s) (questionAnswers s)
          v (showExtractedData s) (webResearchResults s).

Definition withShowExtractedData (v : bool) (s : State) : State :=
  mkState (symptoms s) (charCount s) (isLoading s) (conversationComplete s)
          (followUpQuestions s) (threadId s) (questionAnswers s)
          (extractedData s) v (webResearchResults s).

Definition withWebResearchResults (v : JsVal) (s : State) : State :=
  mkState (symptoms s) (charCount s) (isLoading s) (conversationComplete s)
          (followUpQuestions s) (threadId s) (questionAnswers s)
          (extractedData s) (showExtractedData s) v.

Definition modify (f : State -> State) : M unit := fun s => (Ok (), f s, []).

Definition setSymptoms (v : string) : M unit := modify (withSymptoms v).

Definition setCharCount (v : nat) : M unit := modify (withCharCount v).

Definition setIsLoading (v : bool) : M unit := modify (withIsLoading v).

Definition setConversationComplete (v : bool) : M unit := modify (withConversationComplete v).

Definition setFollowUpQuestions (v : JsVal) : M unit := modify (withFollowUpQuestions v).

(** [setQuestionAnswers] is called with a value and with an updater
    function ([prev => ...]); the updater form covers both. *)
Definition setQuestionAnswers (f : gmap nat string -> gmap nat string) : M unit :=
  modify (fun s => withQuestionAnswers (f (questionAnswers s)) s).

Definition setExtractedData (v : JsVal) : M unit := modify (withExtractedData v).

Definition setShowExtractedData (v : bool) : M unit := modify (withShowExtractedData v).

Definition setWebResearchResults (v : JsVal) : M unit := modify (withWebResearchResults v).

(** ** services/api.js *)

Module Api.

(** [api.post(url, body)]: the request goes out and the promise settles.
    Both interceptors hand their argument on unchanged. *)
Definition post (net : Net) (url : string) (body : JsVal) : M JsVal :=
  perform (Post url body) ;;
  match net url body with
  | Resolved data => mret data
  | Rejected e => throw e
  end.

(** [apiEndpoints.analyzeSymptoms]; the result is [response.data]. The body
    is built before [api.post] is called: reading a field of an argument
    that is [undefined] or [null] throws and nothing is sent. *)
Definition analyzeSymptoms (net : Net) (data : JsVal) : M JsVal :=
  symptoms ← liftRes (member data "symptoms");
  thread_id ← liftRes (member data "thread_id");
  post net "/api/analyze" (JObj [("symptoms", symptoms); ("thread_id", thread_id)]).

(** [apiEndpoints.webResearch]; the result is [response.data]. *)
Definition webResearch (net : Net) (data : JsVal) : M JsVal :=
  thread_id ← liftRes (member data "thread_id");
  post net "/api/web-research" (JObj [("thread_id", thread_id)]).

End Api.

(** ** The component *)

Module App.

(** The line feed of the ["\n"] escapes. *)
Definition LF : string := String (ascii_of_nat 10) EmptyString.

(** [questionAnswers[index]] *)
Definition answerAt (answers : gmap nat string) (index : nat) : JsVal :=
  match answers !! index with
  | Some a => JStr a
  | None => JUndefined
  end.

(** [!questionAnswers[index] || !questionAnswers[index].trim()] *)
Definition unanswered (answers : gmap nat string) (index : nat) : bool :=
  match answers !! index with
  | Some a => negb (truthy (JStr a)) || negb (truthy (JStr (trim a)))
  | None => true
  end.

(** [arr.filter((x, index) => keep x index)] *)
Fixpoint filterFrom {A : Type} (keep : A -> nat -> bool) (index : nat)
    (arr : list A) : list A :=
  match arr with
  | [] => []
  | x :: rest =>
      if keep x index then x :: filterFrom keep (S index) rest
      else filterFrom keep (S index) rest
  end.

Definition filterIndexed {A : Type} (keep : A -> nat -> bool) (arr : list A) : list A :=
  filterFrom keep 0 arr.

(** The receiver of [.filter] and [.map]: only an array has these methods. *)
Definition asArray (v : JsVal) : Res (list JsVal) :=
  match v with
  | JArr elems => Ok elems
  | _ => Throw TypeError
  end.

Definition handleInputChange (value : string) (cl : State) : M unit :=
  setSymptoms value ;;
  setCharCount (String.length value).

Definition handleQuestionAnswerChange (questionIndex : nat) (value : string)
    (cl : State) : M unit :=
  setQuestionAnswers (fun prev => <[questionIndex := value]> prev).

(** The reply handling of [handleSubmit], lines 48 to 67. *)
Definition submitReply (data : JsVal) : M unit :=
  is_complete ← liftRes (member data "is_complete");
  if truthy is_complete then
    setConversationComplete true ;;
    setFollowUpQuestions (JArr []) ;;
    (extracted_data ← liftRes (member data "extracted_data");
     setExtractedData extracted_data) ;;
    setShowExtractedData false
  else
    status ← liftRes (member data "status");
    if strictEqString status "extracted" then
      setShowExtractedData true ;;
      (extracted_data ← liftRes (member data "extracted_data");
       setExtractedData extracted_data) ;;
      setFollowUpQuestions (JArr [])
    else
      (follow_up_questions ← liftRes (member data "follow_up_questions");
       setFollowUpQuestions follow_up_questions) ;;
      setSymptoms "" ;;
      setCharCount 0 ;;
      setQuestionAnswers (fun _ => ∅) ;;
      setShowExtractedData false.

(** The [catch] clause of [handleSubmit]. *)
Definition submitCatch (error : JsError) : M unit :=
  match error with
  | HttpError data =>
      let detail := if nullish data then JUndefined else prop data "detail" in
      alert ("Analysis failed: " +:+ toString (orElse detail (JStr "Server error")))
  | NoResponse =>
      alert "No response from server. Please check your connection."
  | TypeError | OtherError =>
      alert "Analysis failed. Please try again."
  end.

Definition handleSubmit (net : Net) (cl : State) : M unit :=
  if negb (truthy (JStr (trim (symptoms cl)))) then
    alert "Please describe your symptoms."
  else
    setIsLoading true ;;
    tryCatchFinally
      (data ← Api.analyzeSymptoms net
                (JObj [("symptoms", JStr (symptoms cl));
                       ("thread_id", JStr (threadId cl))]);
       submitReply data)
      submitCatch
      (setIsLoading false).

(** [`Q: ${question}\nA: ${questionAnswers[index]}`] *)
Definition answerBlock (answers : gmap nat string) (index : nat)
    (question : JsVal) : string :=
  "Q: " +:+ toString question +:+ LF +:+ "A: " +:+ toString (answerAt answers index).

(** [followUpQuestions.map(...).join('\n\n')] *)
Definition combinedAnswers (answers : gmap nat string) (questions : list JsVal) : string :=
  joinStrings (LF +:+ LF) (imap (answerBlock answers) questions).

(** The reply handling of [handleFollowUpSubmit], lines 112 to 129. *)
Definition followUpReply (data : JsVal) : M unit :=
  is_complete ← liftRes (member data "is_complete");
  if truthy is_complete then
    setConversationComplete true ;;
    setFollowUpQuestions (JArr []) ;;
    (extracted_data ← liftRes (member data "extracted_data");
     setExtractedData extracted_data) ;;
    setShowExtractedData false
  else
    status ← liftRes (member data "status");
    if strictEqString status "extracted" then
      setShowExtractedData true ;;
      (extracted_data ← liftRes (member data "extracted_data");
       setExtractedData extracted_data) ;;
      setFollowUpQuestions (JArr [])
    else
      (follow_up_questions ← liftRes (member data "follow_up_questions");
       setFollowUpQuestions follow_up_questions) ;;
      setQuestionAnswers (fun _ => ∅) ;;
      setShowExtractedData false.

Definition handleFollowUpSubmit (net : Net) (cl : State) : M unit :=
  questions ← liftRes (asArray (followUpQuestions cl));
  let unansweredQuestions :=
    filterIndexed (fun _ index => unanswered (questionAnswers cl) index) questions in
  if 0 <? length unansweredQuestions then
    alert "Please answer all questions before submitting."
  else
    setIsLoading true ;;
    tryCatchFinally
      (data ← Api.analyzeSymptoms net
                (JObj [("symptoms", JStr (combinedAnswers (questionAnswers cl) questions));
                       ("thread_id", JStr (threadId cl))]);
       followUpReply data)
      (fun _ => alert "Failed to submit answers. Please try again.")
      (setIsLoading false).

Definition handleWebResearch (net : Net) (cl : State) : M unit :=
  setIsLoading true ;;
  tryCatchFinally
    (data ← Api.webResearch net (JObj [("thread_id", JStr (threadId cl))]);
     setConversationComplete true ;;
     setShowExtractedData false ;;
     (extracted_data ← liftRes (member data "extracted_data");
      setExtractedData extracted_data) ;;
     (web_research_results ← liftRes (member data "web_research_results");
      setWebResearchResults (orElse web_research_results (JObj []))))
    (fun _ => alert "Web research failed. Please try again.")
    (setIsLoading false).

Definition resetConversation (cl : State) : M unit :=
  setSymptoms "" ;;
  setCharCount 0 ;;
  setConversationComplete false ;;
  setFollowUpQuestions (JArr []) ;;
  setQuestionAnswers (fun _ => ∅) ;;
  setExtractedData (JObj []) ;;
  setShowExtractedData false ;;
  setWebResearchResults (JObj []).

(** A handler created by the render of state [s] and run to completion
    while [s] is still the current state: the state and the effects it
    leaves. An exception that escapes the handler changes neither. *)
Definition invoke (handler : State -> M unit) (s : State) : State * list Effect :=
  let '(_, s', log) := handler s s in (s', log).

End App.
Export App.

(** ** What [App] returns and what React renders *)

Module View.

(** A child slot of a results section. [cond && <div .../>] leaves the
    falsy [cond] itself in the slot when the item is not shown. The value
    in an [NValue] slot and the [child] of an item are values in child
    position: React turns them into text, or throws, when it renders what
    the component returned ([childText], [render]). *)
Inductive Node : Type :=
| NValue (v : JsVal)
| NItem (label : string) (child : JsVal).

(** [cond && element] *)
Definition whenTruthy (cond : JsVal) (element : Res Node) : Res Node :=
  if truthy cond then element else Ok (NValue cond).

(** [{record.field && (<div><strong>label</strong> {record.field.join(', ')}</div>)}] *)
Definition listItem (record : JsVal) (field label : string) : Res Node :=
  v ← member record field;
  whenTruthy v (text ← callJoin v ", "; mret (NItem label (JStr text))).

(** [{record.field && (<div><strong>label</strong> {record.field}</div>)}]:
    the element as the component returns it, its child not yet looked at. *)
Definition textItem (record : JsVal) (field label : string) : Res Node :=
  v ← member record field;
  whenTruthy v (mret (NItem label v)).

(** The five slots of the [results-section] block, which the Complete
    screen (lines 189 to 221) and the Extracted screen (lines 318 to 350)
    both contain. *)
Definition resultsSection (extractedData : JsVal) : Res (list Node) :=
  n1 ← listItem extractedData "parsed_symptoms" "Symptoms:";
  n2 ← listItem extractedData "body_parts_affected" "Body Parts Affected:";
  n3 ← textItem extractedData "time_since_start" "Timeline:";
  n4 ← textItem extractedData "evolution_of_symptoms" "Symptom Evolution:";
  n5 ← listItem extractedData "medical_checks" "Medical Checks:";
  mret [n1; n2; n3; n4; n5].

(** [Object.keys(v).length]; an object literal or parsed object lists each
    key once. *)
Definition objectKeysLength (v : JsVal) : Res nat :=
  match v with
  | JUndefined | JNull => Throw TypeError
  | JObj props => Ok (length props)
  | JArr elems => Ok (length elems)
  | JStr s => Ok (String.length s)
  | JBool _ | JNum _ => Ok 0
  end.

(** The screens. Of the research block of the Complete screen (lines 224 to
    290) only its presence is recorded: its inner items, which compare
    [length] properties as numbers, are not modelled. The "Start New
    Analysis" button of the Complete screen is always enabled; the other
    buttons carry [disabled={isLoading}]. *)
Inductive Screen : Type :=
| CompleteScreen (info : list Node) (researchBlock : bool)
| ExtractedScreen (info : list Node) (researchDisabled : bool)
| SymptomForm (value : string) (count : nat) (submitDisabled : bool)
| FollowUpForm (inputs : list (JsVal * string)) (submitDisabled : bool).

(** One question of the follow-up form: the child of its label and the
    [value] of its textarea, [questionAnswers[index] || '']. *)
Definition questionInput (answers : gmap nat string) (index : nat)
    (question : JsVal) : JsVal * string :=
  (question, default "" (answers !! index)).

Definition isZero (v : JsVal) : bool :=
  match v with
  | JNum z => (z =? 0)%Z
  | _ => false
  end.

(** What the component function returns for a state: the body of [App]
    from line 174 on. A TypeError of a property read or of a method call in
    the JSX is thrown here. *)
Definition component (s : State) : Res Screen :=
  if conversationComplete s then
    info ← resultsSection (extractedData s);
    keys ← objectKeysLength (webResearchResults s);
    mret (CompleteScreen info (0 <? keys))
  else if showExtractedData s then
    info ← resultsSection (extractedData s);
    mret (ExtractedScreen info (isLoading s))
  else
    len ← member (followUpQuestions s) "length";
    if isZero len then
      mret (SymptomForm (symptoms s) (charCount s) (isLoading s))
    else
      questions ← asArray (followUpQuestions s);
      mret (FollowUpForm (imap (questionInput (questionAnswers s)) questions)
                         (isLoading s)).

(** What React makes of a value in child position: the text it puts on the
    page. [undefined], [null] and the booleans give nothing, a number and a
    string their text, an array the texts of its elements one after the
    other; for a plain object React throws an Error ("Objects are not valid
    as a React child"), which carries neither [response] nor [request]. *)
Fixpoint childText (v : JsVal) : Res string :=
  match v with
  | JUndefined | JNull | JBool _ => Ok ""
  | JNum z => Ok (pretty z)
  | JStr s => Ok s
  | JArr elems =>
      (fix texts (children : list JsVal) : Res string :=
         match children with
         | [] => Ok ""
         | child :: rest =>
             text ← childText child;
             later ← texts rest;
             mret (text +:+ later)
         end) elems
  | JObj _ => Throw OtherError
  end.

(** React going through a list of children. *)
Fixpoint checkChildren (children : list JsVal) : Res unit :=
  match children with
  | [] => Ok ()
  | child :: rest => childText child ;; checkChildren rest
  end.

Definition nodeChild (n : Node) : JsVal :=
  match n with
  | NValue v => v
  | NItem _ child => child
  end.

(** The values that the state put in child position on a screen: the slots
    of the results section, the questions in the labels of the follow-up
    form. The symptom form has the character count only, a number. *)
Definition screenChildren (screen : Screen) : list JsVal :=
  match screen with
  | CompleteScreen info _ | ExtractedScreen info _ => nodeChild <$> info
  | SymptomForm _ _ _ => []
  | FollowUpForm inputs _ => fst <$> inputs
  end.

(** The render of a state: the component returns its elements, then React
    renders them. With no error boundary in the tree, a throw of either
    leaves no screen. *)
Definition render (s : State) : Res Screen :=
  screen ← component s;
  checkChildren (screenChildren screen) ;;
  mret screen.

(** The stage of the conversation, read off the two flags in the order in
    which [component] tests them. *)
Inductive Stage : Type := Collecting | Extracted | Complete.

Definition stage (s : State) : Stage :=
  if conversationComplete s then Complete
  else if showExtractedData s then Extracted
  else Collecting.


End View.
Export View.

(** ** A session: the page from its first render on *)

Module Session.

(** What the user can do. A submission or a click carries the behaviour of
    the network at that moment. *)
Inductive Event : Type :=
| TypeSymptoms (value : string)
| TypeAnswer (questionIndex : nat) (value : string)
| SubmitSymptoms (net : Net)
| SubmitAnswers (net : Net)
| StartResearch (net : Net)
| StartNewAnalysis.

(** The controls are those of the rendered screen: a handler runs only
    through the form or button that the current render put on the page. *)
Definition offered (screen : Res Screen) (e : Event) : bool :=
  match screen, e with
  | Ok (SymptomForm _ _ _), TypeSymptoms _ => true
  | Ok (SymptomForm _ _ disabled), SubmitSymptoms _ => negb disabled
  | Ok (FollowUpForm inputs _), TypeAnswer i _ => i <? length inputs
  | Ok (FollowUpForm _ disabled), SubmitAnswers _ => negb disabled
  | Ok (ExtractedScreen _ disabled), StartResearch _ => negb disabled
  | Ok (CompleteScreen _ _), StartNewAnalysis => true
  | _, _ => false
  end.

Definition handlerOf (e : Event) : State -> M unit :=
  match e with
  | TypeSymptoms value => handleInputChange value
  | TypeAnswer i value => handleQuestionAnswerChange i value
  | SubmitSymptoms net => handleSubmit net
  | SubmitAnswers net => handleFollowUpSubmit net
  | StartResearch net => handleWebResearch net
  | StartNewAnalysis => resetConversation
  end.

Definition fire (e : Event) (s : State) : State * list Effect :=
  if offered (render s) e then invoke (handlerOf e) s else (s, []).

(** The state and the effect log after a sequence of events, each handler
    running to completion before the next event. *)
Fixpoint run (events : list Event) (s : State) : State * list Effect :=
  match events with
  | [] => (s, [])
  | e :: rest =>
      let '(s1, log1) := fire e s in
      let '(s2, log2) := run rest s1 in
      (s2, log1 ++ log2)
  end.

(** The states of a session that started at time [now]. *)
Definition reachable (now : Z) (s : State) : Prop :=
  exists events, fst (run events (initialState now)) = s.

End Session.
Export Session.

(** * Vocabulary of the statements *)

(** The body of the analyze request of [handleSubmit]. *)
Definition symptomsRequest (s : State) : JsVal :=
  JObj [("symptoms", JStr (symptoms s)); ("thread_id", JStr (threadId s))].

(** The body of the analyze request of [handleFollowUpSubmit]. *)
Definition answersRequest (s : State) (questions : list JsVal) : JsVal :=
  JObj [("symptoms", JStr (combinedAnswers (questionAnswers s) questions));
        ("thread_id", JStr (threadId s))].

(** The body of the research request. *)
Definition researchRequest (s : State) : JsVal :=
  JObj [("thread_id", JStr (threadId s))].

(** The three ways an analyze reply is taken, as state transformers. *)
Definition completeWith (data : JsVal) (s : State) : State :=
  withShowExtractedData false
    (withExtractedData (prop data "extracted_data")
       (withFollowUpQuestions (JArr [])
          (withConversationComplete true s))).

Definition extractedWith (data : JsVal) (s : State) : State :=
  withFollowUpQuestions (JArr [])
    (withExtractedData (prop data "extracted_data")
       (withShowExtractedData true s)).

Definition askWith (data : JsVal) (s : State) : State :=
  withShowExtractedData false
    (withQuestionAnswers ∅
       (withFollowUpQuestions (prop data "follow_up_questions") s)).

(** How a research reply is taken. *)
Definition researchedWith (data : JsVal) (s : State) : State :=
  withWebResearchResults (orElse (prop data "web_research_results") (JObj []))
    (withExtractedData (prop data "extracted_data")
       (withShowExtractedData false
          (withConversationComplete true s))).

(** Whether [handleFollowUpSubmit] finds every question answered. *)
Definition allAnswered (s : State) (questions : list JsVal) : bool :=
  negb (0 <? length (filterIndexed (fun _ index => unanswered (questionAnswers s) index)
                                   questions)).

(** The message [submitCatch] puts in its alert. *)
Definition analysisFailedMessage (error : JsError) : string :=
  match error with
  | HttpError data =>
      "Analysis failed: " +:+
      toString (orElse (if nullish data then JUndefined else prop data "detail")
                       (JStr "Server error"))
  | NoResponse => "No response from server. Please check your connection."
  | TypeError | OtherError => "Analysis failed. Please try again."
  end.

(** What holds of every state between two events of a session. *)
Record Inv (now : Z) (s : State) : Prop := {
  inv_thread : threadId s = threadId (initialState now);
  inv_idle : isLoading s = false;
  inv_exclusive : conversationComplete s && showExtractedData s = false;
  inv_no_questions :
    conversationComplete s || showExtractedData s = true ->
    followUpQuestions s = JArr [];
  inv_no_research :
    conversationComplete s = false -> webResearchResults s = JObj [];
  inv_cleared :
    (exists q rest, followUpQuestions s = JArr (q :: rest)) ->
    symptoms s = "" /\ charCount s = 0
}.

(** What the screen that offers an event says about the state. *)
Definition offeredIn (e : Event) (s : State) : Prop :=
  match e with
  | TypeSymptoms _ | SubmitSymptoms _ =>
      conversationComplete s = false /\ showExtractedData s = false /\
      forall q rest, followUpQuestions s <> JArr (q :: rest)
  | TypeAnswer _ _ | SubmitAnswers _ =>
      conversationComplete s = false /\ showExtractedData s = false /\
      exists q rest, followUpQuestions s = JArr (q :: rest)
  | StartResearch _ =>
      conversationComplete s = false /\ showExtractedData s = true
  | StartNewAnalysis => conversationComplete s = true
  end.






(** A value that React can render in child position. *)
Definition validChild (v : JsVal) : bool :=
  match childText v with
  | Ok _ => true
  | Throw _ => false
  end.





(** The text of a round in the words of the specification: one block
    ["Q: <question>\nA: <answer>"] per pair, in order, consecutive blocks
    separated by a blank line. *)
Definition specBlock (qa : string * string) : string :=
  "Q: " +:+ fst qa +:+ LF +:+ "A: " +:+ snd qa.

Fixpoint specRoundText (pairs : list (string * string)) : string :=
  match pairs with
  | [] => ""
  | [qa] => specBlock qa
  | qa :: rest => specBlock qa +:+ LF +:+ LF +:+ specRoundText rest
  end.

(** The question/answer pairs of the round on the page. *)
Definition roundPairs (s : State) (questions : list JsVal) : list (string * string) :=
  imap (fun index question =>
          (toString question, default "" (questionAnswers s !! index)))
       questions.

(** A request carries the thread identifier [tid] when it goes to one of
    the two endpoints with [tid] as the [thread_id] of its body. *)
Definition carriesThread (tid : string) (effect : Effect) : Prop :=
  match effect with
  | Post url body =>
      (url = "/api/analyze" \/ url = "/api/web-research") /\
      prop body "thread_id" = JStr tid
  | Alert _ => True
  end.

(** ** A session as an example *)

Module Example.

Definition replyWith (data : JsVal) : Net := fun _ _ => Resolved data.

Definition offline : Net := fun _ _ => Rejected NoResponse.

Definition opened : State := initialState 1700000000000.

Definition questionsReply : JsVal :=
  JObj [("is_complete", JBool false);
        ("follow_up_questions", JArr [JStr "How severe is the fever?"])].

Definition extractedReply : JsVal :=
  JObj [("is_complete", JBool false); ("status", JStr "extracted");
        ("extracted_data",
         JObj [("parsed_symptoms", JArr [JStr "headache"; JStr "fever"]);
               ("time_since_start", JStr "yesterday")])].

Definition completeReply : JsVal :=
  JObj [("is_complete", JBool true);
        ("extracted_data",
         JObj [("parsed_symptoms", JArr [JStr "headache"; JStr "fever"]);
               ("time_since_start", JStr "")])].


Definition researchReply : JsVal :=
  JObj [("extracted_data", JObj [("parsed_symptoms", JArr [JStr "headache"])]);
        ("web_research_results", JObj [("confidence_level", JStr "high")])].




(** A research reply whose results are the empty string. *)
Definition emptyResultsReply : JsVal :=
  JObj [("extracted_data", JObj [("parsed_symptoms", JArr [JStr "headache"])]);
        ("web_research_results", JStr "")].

(** The events that lead to each stage, and the states they lead to. *)
Definition typing : list Event :=
  [TypeSymptoms "I have a headache and mild fever since yesterday"].

Definition asking : list Event :=
  typing ++ [SubmitSymptoms (replyWith questionsReply)].

Definition answering : list Event := asking ++ [TypeAnswer 0 "mild"].

Definition extracting : list Event :=
  typing ++ [SubmitSymptoms (replyWith extractedReply)].

Definition completing : list Event :=
  extracting ++ [StartResearch (replyWith researchReply)].

Definition typed : State := fst (run typing opened).
Definition asked : State := fst (run asking opened).
Definition answered : State := fst (run answering opened).
Definition extracted : State := fst (run extracting opened).
Definition completed : State := fst (run completing opened).

End Example.

(** * Vocabulary of the further properties *)

(** A text made of WhiteSpace and LineTerminator characters only. *)
Fixpoint allWhiteSpace (text : string) : bool :=
  match text with
  | EmptyString => true
  | String c rest => isWhiteSpace c && allWhiteSpace rest
  end.

(** The requests of an effect log. *)
Definition isPost (effect : Effect) : bool :=
  match effect with
  | Post _ _ => true
  | Alert _ => false
  end.

Definition requests (log : list Effect) : nat := length (List.filter isPost log).

(** The events whose handler calls the network. *)
Definition asksNetwork (e : Event) : bool :=
  match e with
  | SubmitSymptoms _ | SubmitAnswers _ | StartResearch _ => true
  | TypeSymptoms _ | TypeAnswer _ _ | StartNewAnalysis => false
  end.

(** The stage changes one event can make. *)
Definition mayFollow (before after : Stage) : bool :=
  match before, after with
  | Collecting, _ => true
  | Extracted, (Extracted | Complete) => true
  | Complete, (Complete | Collecting) => true
  | _, _ => false
  end.

(** [apiEndpoints.debugFunctionality] of services/api.js; the result is
    [response.data]. *)
Definition debugFunctionality (net : Net) (data : JsVal) : M JsVal :=
  symptom ← liftRes (member data "symptom");
  Api.post net "/api/research-debug" (JObj [("symptom", symptom)]).

(** The answers of a list stored under the indices [first], [first + 1],
    ..., as [handleQuestionAnswerChange] stores them one after the other. *)
Fixpoint storeAnswers (first : nat) (answers : list string)
    (stored : gmap nat string) : gmap nat string :=
  match answers with
  | [] => stored
  | a :: rest => storeAnswers (S first) rest (<[first := a]> stored)
  end.

(** The user fills in the answer inputs from the one at [first] on. *)
Definition typeAnswersFrom (first : nat) (answers : list string) : list Event :=
  imap (fun index a => TypeAnswer (first + index) a) answers.







(** ** The handlers at their [await] *)

Module Async.

(** The three continuations that can wait for a request. *)
Inductive Waiting : Type := AfterSubmit | AfterFollowUp | AfterResearch.

(** A request in flight: the continuation that waits for it and what the
    request will settle to. *)
Record Pending : Type := mkPending {
  waiting : Waiting;
  settlesTo : Outcome
}.

(** [await api.post(url, body)], first half: the request goes out and the
    handler is suspended. *)
Definition send (net : Net) (url : string) (body : JsVal) (w : Waiting) :
    M (option Pending) :=
  perform (Post url body) ;;
  mret (Some (mkPending w (net url body))).

(** [await api.post(url, body)], second half: the promise settles and the
    handler goes on with [response.data], or with a throw. *)
Definition settled (outcome : Outcome) : M JsVal :=
  match outcome with
  | Resolved data => mret data
  | Rejected e => throw e
  end.

(** [handleSubmit] up to its [await], lines 30 to 44. *)
Definition handleSubmitStart (net : Net) (cl : State) : M (option Pending) :=
  if negb (truthy (JStr (trim (symptoms cl)))) then
    alert "Please describe your symptoms." ;;
    mret None
  else
    setIsLoading true ;;
    let data := JObj [("symptoms", JStr (symptoms cl));
                      ("thread_id", JStr (threadId cl))] in
    send net "/api/analyze"
      (JObj [("symptoms", prop data "symptoms"); ("thread_id", prop data "thread_id")])
      AfterSubmit.

(** [handleFollowUpSubmit] up to its [await], lines 84 to 108. *)
Definition handleFollowUpSubmitStart (net : Net) (cl : State) : M (option Pending) :=
  questions ← liftRes (asArray (followUpQuestions cl));
  let unansweredQuestions :=
    filterIndexed (fun _ index => unanswered (questionAnswers cl) index) questions in
  if 0 <? length unansweredQuestions then
    alert "Please answer all questions before submitting." ;;
    mret None
  else
    setIsLoading true ;;
    let data := JObj [("symptoms", JStr (combinedAnswers (questionAnswers cl) questions));
                      ("thread_id", JStr (threadId cl))] in
    send net "/api/analyze"
      (JObj [("symptoms", prop data "symptoms"); ("thread_id", prop data "thread_id")])
      AfterFollowUp.

(** [handleWebResearch] up to its [await], lines 139 to 145. *)
Definition handleWebResearchStart (net : Net) (cl : State) : M (option Pending) :=
  setIsLoading true ;;
  let data := JObj [("thread_id", JStr (threadId cl))] in
  send net "/api/web-research" (JObj [("thread_id", prop data "thread_id")])
    AfterResearch.

(** The reply handling of [handleWebResearch], lines 147 to 153. *)
Definition researchReply (data : JsVal) : M unit :=
  setConversationComplete true ;;
  setShowExtractedData false ;;
  (extracted_data ← liftRes (member data "extracted_data");
   setExtractedData extracted_data) ;;
  (web_research_results ← liftRes (member data "web_research_results");
   setWebResearchResults (orElse web_research_results (JObj []))).

(** The rest of a handler, from the settling of its request to the end of
    its [finally]. *)
Definition resume (p : Pending) : M unit :=
  match waiting p with
  | AfterSubmit =>
      tryCatchFinally
        (data ← settled (settlesTo p); submitReply data)
        submitCatch
        (setIsLoading false)
  | AfterFollowUp =>
      tryCatchFinally
        (data ← settled (settlesTo p); followUpReply data)
        (fun _ => alert "Failed to submit answers. Please try again.")
        (setIsLoading false)
  | AfterResearch =>
      tryCatchFinally
        (data ← settled (settlesTo p); researchReply data)
        (fun _ => alert "Web research failed. Please try again.")
        (setIsLoading false)
  end.

(** The page: the state of the component and the requests in flight. *)
Record Page : Type := mkPage {
  current : State;
  inFlight : list Pending
}.

Definition openPage (now : Z) : Page := mkPage (initialState now) [].

(** What happens on the page: the user does something, or the request at
    some position among those in flight settles. *)
Inductive PageEvent : Type :=
| Does (e : Event)
| Settles (index : nat).

(** The synchronous part of the handler of an event. *)
Definition begin (e : Event) (cl : State) : M (option Pending) :=
  match e with
  | TypeSymptoms value => handleInputChange value cl ;; mret None
  | TypeAnswer i value => handleQuestionAnswerChange i value cl ;; mret None
  | SubmitSymptoms net => handleSubmitStart net cl
  | SubmitAnswers net => handleFollowUpSubmitStart net cl
  | StartResearch net => handleWebResearchStart net cl
  | StartNewAnalysis => resetConversation cl ;; mret None
  end.

(** One event of the page. A handler starts only through a control of the
    current render, with the current state in its closure; a continuation
    runs on the state of the moment its request settles. *)
Definition pageStep (pe : PageEvent) (p : Page) : Page * list Effect :=
  match pe with
  | Does e =>
      if offered (render (current p)) e then
        let '(r, s, log) := begin e (current p) (current p) in
        (mkPage s (inFlight p ++ match r with
                                 | Ok (Some w) => [w]
                                 | _ => []
                                 end),
         log)
      else (p, [])
  | Settles index =>
      match inFlight p !! index with
      | Some w =>
          let '(_, s, log) := resume w (current p) in
          (mkPage s (delete index (inFlight p)), log)
      | None => (p, [])
      end
  end.

Fixpoint runPage (events : list PageEvent) (p : Page) : Page * list Effect :=
  match events with
  | [] => (p, [])
  | pe :: rest =>
      let '(p1, log1) := pageStep pe p in
      let '(p2, log2) := runPage rest p1 in
      (p2, log1 ++ log2)
  end.

End Async.
Export Async.

(** What holds of a page between two of its events. While a request is in
    flight the state is still in the stage in which the request was sent. *)
Definition sentFrom (w : Waiting) (s : State) : Prop :=
  conversationComplete s = false /\
  showExtractedData s = match w with
                        | AfterResearch => true
                        | AfterSubmit | AfterFollowUp => false
                        end.

Record PageInv (now : Z) (p : Page) : Prop := {
  page_thread : threadId (current p) = threadId (initialState now);
  page_flight :
    (inFlight p = [] /\ isLoading (current p) = false) \/
    (exists w, inFlight p = [w] /\ isLoading (current p) = true /\
               sentFrom (waiting w) (current p));
  page_exclusive :
    conversationComplete (current p) && showExtractedData (current p) = false;
  page_no_questions :
    conversationComplete (current p) || showExtractedData (current p) = true ->
    followUpQuestions (current p) = JArr []
}.

(** A network that answers no request. *)
Definition neverAnswers (net : Net) : Prop :=
  forall url body, exists error, net url body = Rejected error.

(** ** More of the example session *)

Module Example2.


(** Only white space is typed. *)
Definition blank : State := fst (run [TypeSymptoms "   "] Example.opened).

(** The whole conversation, then the reset. *)
Definition restarting : list Event := Example.completing ++ [StartNewAnalysis].

(** The symptoms are typed and submitted, and the reply has not come yet;
    then it comes, complete. *)
Definition waiting : list PageEvent :=
  [Does (TypeSymptoms "I have a headache and mild fever since yesterday");
   Does (SubmitSymptoms (Example.replyWith Example.completeReply))].

Definition replied : list PageEvent := waiting ++ [Settles 0].

End Example2.

(** * Properties *)

(** ** Running the handlers *)

Ltac unfold_monad :=
  unfold tryCatchFinally, Api.analyzeSymptoms, Api.webResearch, Api.post,
    setSymptoms, setCharCount, setIsLoading, setConversationComplete,
    setFollowUpQuestions, setQuestionAnswers, setExtractedData,
    setShowExtractedData, setWebResearchResults, modify, alert, perform,
    liftRes, throw, mbind, M_bind, mret, M_ret.

Ltac unfold_handlers :=
  unfold invoke, handleSubmit, handleFollowUpSubmit, handleWebResearch,
    resetConversation, handleInputChange, handleQuestionAnswerChange,
    submitReply, followUpReply, submitCatch, member.

Ltac run_handler := unfold_handlers; unfold_monad; cbn.

Lemma trim_blank_iff (text : string) :
  negb (truthy (JStr (trim text))) = true <-> trim text = "".
Proof.
  cbn. rewrite negb_involutive. apply String.eqb_eq.
Qed.

Lemma unanswered_true_iff (answers : gmap nat string) (index : nat) :
  unanswered answers index = true <->
  answers !! index = None \/ exists a, answers !! index = Some a /\ trim a = "".
Proof.
  unfold unanswered. destruct (answers !! index) as [a|] eqn:Ha.
  - rewrite orb_true_iff, trim_blank_iff. split.
    + intros [Hempty | Hblank]; right; exists a; split; auto.
      cbn in Hempty. rewrite negb_involutive in Hempty.
      apply String.eqb_eq in Hempty. by subst a.
    + intros [? | (a' & [= <-] & Hblank)]; [done | by right].
  - split; [by left | done].
Qed.

Lemma unanswered_false_iff (answers : gmap nat string) (index : nat) :
  unanswered answers index = false <->
  exists a, answers !! index = Some a /\ trim a <> "".
Proof.
  rewrite <- not_true_iff_false, unanswered_true_iff. split.
  - intros Hno. destruct (answers !! index) as [a|]; [| by destruct Hno; left].
    exists a. split; [done |]. intros Hblank. apply Hno. right. by exists a.
  - intros (a & Ha & Hne) [Hnone | (a' & Ha' & Hblank)]; congruence.
Qed.

Lemma filterFrom_nil_iff {A : Type} (keep : A -> nat -> bool) (arr : list A) (k : nat) :
  filterFrom keep k arr = [] <->
  forall i x, arr !! i = Some x -> keep x (k + i) = false.
Proof.
  revert k. induction arr as [| y rest IH]; intros k; cbn.
  - split; [intros _ i x Hi; by rewrite lookup_nil in Hi | done].
  - destruct (keep y k) eqn:Hy.
    + split; [done |]. intros Hall. specialize (Hall 0 y eq_refl).
      rewrite Nat.add_0_r in Hall. congruence.
    + rewrite IH. split.
      * intros Hall [| i] x Hi; cbn in Hi.
        -- injection Hi as <-. by rewrite Nat.add_0_r.
        -- rewrite <- Nat.add_succ_comm. by apply Hall.
      * intros Hall i x Hi. rewrite Nat.add_succ_comm. by apply (Hall (S i)).
Qed.

Lemma allAnswered_true_iff (s : State) (questions : list JsVal) :
  allAnswered s questions = true <->
  forall index, index < length questions ->
    exists a, questionAnswers s !! index = Some a /\ trim a <> "".
Proof.
  unfold allAnswered, filterIndexed. rewrite negb_true_iff, Nat.ltb_ge.
  rewrite Nat.le_0_r, length_zero_iff_nil, filterFrom_nil_iff. split.
  - intros Hall index Hlt. apply lookup_lt_is_Some_2 in Hlt as [q Hq].
    apply unanswered_false_iff. exact (Hall index q Hq).
  - intros Hall index q Hq. cbn. apply unanswered_false_iff.
    apply Hall. by apply lookup_lt_Some in Hq.
Qed.

Lemma handleSubmit_blank (net : Net) (s : State) :
  trim (symptoms s) = "" ->
  invoke (handleSubmit net) s = (s, [Alert "Please describe your symptoms."]).
Proof.
  intros Hblank. unfold invoke, handleSubmit.
  apply trim_blank_iff in Hblank. rewrite Hblank. reflexivity.
Qed.

Lemma handleFollowUpSubmit_blank (net : Net) (s : State) (questions : list JsVal) :
  followUpQuestions s = JArr questions ->
  allAnswered s questions = false ->
  invoke (handleFollowUpSubmit net) s =
    (s, [Alert "Please answer all questions before submitting."]).
Proof.
  intros Hq Hblank. unfold invoke, handleFollowUpSubmit, allAnswered in *.
  rewrite Hq. apply negb_false_iff in Hblank. unfold_monad. cbn -[filterIndexed Nat.ltb].
  rewrite Hblank. reflexivity.
Qed.

Lemma handleSubmit_sent (net : Net) (s : State) :
  trim (symptoms s) <> "" ->
  invoke (handleSubmit net) s =
    match net "/api/analyze" (symptomsRequest s) with
    | Resolved data =>
        if nullish data then
          (withIsLoading false s,
           [Post "/api/analyze" (symptomsRequest s);
            Alert "Analysis failed. Please try again."])
        else if truthy (prop data "is_complete") then
          (withIsLoading false (completeWith data s),
           [Post "/api/analyze" (symptomsRequest s)])
        else if strictEqString (prop data "status") "extracted" then
          (withIsLoading false (extractedWith data s),
           [Post "/api/analyze" (symptomsRequest s)])
        else
          (withIsLoading false (withCharCount 0 (withSymptoms "" (askWith data s))),
           [Post "/api/analyze" (symptomsRequest s)])
    | Rejected error =>
        (withIsLoading false s,
         [Post "/api/analyze" (symptomsRequest s);
          Alert (analysisFailedMessage error)])
    end.
Proof.
  intros Hvalid. unfold invoke, handleSubmit.
  destruct (negb (truthy (JStr (trim (symptoms s))))) eqn:Hblank.
  { by apply trim_blank_iff in Hblank. }
  unfold symptomsRequest. run_handler.
  destruct (net _ _) as [data | error]; cbn.
  - destruct (nullish data); cbn; [done |].
    destruct (truthy (prop data "is_complete")); cbn; [done |].
    destruct (strictEqString _ _); cbn; done.
  - destruct error; done.
Qed.

Lemma handleFollowUpSubmit_sent (net : Net) (s : State) (questions : list JsVal) :
  followUpQuestions s = JArr questions ->
  allAnswered s questions = true ->
  invoke (handleFollowUpSubmit net) s =
    match net "/api/analyze" (answersRequest s questions) with
    | Resolved data =>
        if nullish data then
          (withIsLoading false s,
           [Post "/api/analyze" (answersRequest s questions);
            Alert "Failed to submit answers. Please try again."])
        else if truthy (prop data "is_complete") then
          (withIsLoading false (completeWith data s),
           [Post "/api/analyze" (answersRequest s questions)])
        else if strictEqString (prop data "status") "extracted" then
          (withIsLoading false (extractedWith data s),
           [Post "/api/analyze" (answersRequest s questions)])
        else
          (withIsLoading false (askWith data s),
           [Post "/api/analyze" (answersRequest s questions)])
    | Rejected error =>
        (withIsLoading false s,
         [Post "/api/analyze" (answersRequest s questions);
          Alert "Failed to submit answers. Please try again."])
    end.
Proof.
  intros Hq Hvalid. unfold invoke, handleFollowUpSubmit, allAnswered in *.
  rewrite Hq. apply negb_true_iff in Hvalid. unfold_monad.
  cbn -[filterIndexed Nat.ltb combinedAnswers]. rewrite Hvalid.
  unfold answersRequest. run_handler.
  destruct (net _ _) as [data | error]; cbn; [| done].
  destruct (nullish data); cbn; [done |].
  destruct (truthy (prop data "is_complete")); cbn; [done |].
  destruct (strictEqString _ _); cbn; done.
Qed.

Lemma handleFollowUpSubmit_not_array (net : Net) (s : State) :
  (forall questions, followUpQuestions s <> JArr questions) ->
  invoke (handleFollowUpSubmit net) s = (s, []).
Proof.
  intros Hq. unfold invoke, handleFollowUpSubmit. unfold_monad.
  destruct (followUpQuestions s); cbn; try done. by destruct (Hq elems).
Qed.

Lemma handleWebResearch_run (net : Net) (s : State) :
  invoke (handleWebResearch net) s =
    match net "/api/web-research" (researchRequest s) with
    | Resolved data =>
        if nullish data then
          (withIsLoading false
             (withShowExtractedData false (withConversationComplete true s)),
           [Post "/api/web-research" (researchRequest s);
            Alert "Web research failed. Please try again."])
        else
          (withIsLoading false (researchedWith data s),
           [Post "/api/web-research" (researchRequest s)])
    | Rejected error =>
        (withIsLoading false s,
         [Post "/api/web-research" (researchRequest s);
          Alert "Web research failed. Please try again."])
    end.
Proof.
  unfold researchRequest. run_handler.
  destruct (net _ _) as [data | error]; cbn; [| done].
  destruct (nullish data); cbn; done.
Qed.

Lemma resetConversation_run (s : State) :
  invoke resetConversation s =
    (mkState "" 0 (isLoading s) false (JArr []) (threadId s) ∅ (JObj []) false (JObj []),
     []).
Proof. reflexivity. Qed.


Lemma followUpQuestions_array_dec (s : State) :
  (exists questions, followUpQuestions s = JArr questions) \/
  (forall questions, followUpQuestions s <> JArr questions).
Proof.
  destruct (followUpQuestions s); try (by right); left; by eexists.
Qed.




(** ** Local validation *)

(** C3. A submission that fails local validation issues no request, shows
    one alert and changes nothing: [handleSubmit] when the symptom text
    trims to the empty string, [handleFollowUpSubmit] when the answer of
    some question is missing or trims to the empty string. *)
Theorem local_validation_blocks_submission (net : Net) (s : State) :
  (trim (symptoms s) = "" ->
   invoke (handleSubmit net) s = (s, [Alert "Please describe your symptoms."]))
  /\ (forall (questions : list JsVal) (index : nat),
       followUpQuestions s = JArr questions ->
       index < length questions ->
       (questionAnswers s !! index = None \/
        exists a, questionAnswers s !! index = Some a /\ trim a = "") ->
       invoke (handleFollowUpSubmit net) s =
         (s, [Alert "Please answer all questions before submitting."])).
Proof.
  split; [apply handleSubmit_blank |].
  intros questions index Hq Hlt Hblank.
  apply handleFollowUpSubmit_blank with questions; [done |].
  apply not_true_iff_false. rewrite allAnswered_true_iff.
  intros Hall. destruct (Hall index Hlt) as (a & Ha & Hne).
  destruct Hblank as [Hnone | (a' & Ha' & Hblank)]; congruence.
Qed.

(** ** Failed requests *)


(** ** Sessions *)

Lemma Inv_initialState (now : Z) : Inv now (initialState now).
Proof.
  split; cbn; done.
Qed.

(** A screen is rendered when the component returns it and React accepts
    its children. *)
Lemma render_component (s : State) (screen : Screen) :
  render s = Ok screen -> component s = Ok screen.
Proof.
  unfold render. destruct (component s) as [screen' |]; [| done].
  cbn. destruct (checkChildren _) as [[] |]; [| done]. intros Hscreen. exact Hscreen.
Qed.

Lemma render_children (s : State) (screen : Screen) :
  render s = Ok screen -> checkChildren (screenChildren screen) = Ok ().
Proof.
  unfold render. destruct (component s) as [screen' |]; [| done].
  cbn. destruct (checkChildren _) as [[] |] eqn:Hchildren; [| done].
  intros [= <-]. exact Hchildren.
Qed.

Lemma render_Ok (s : State) (screen : Screen) :
  component s = Ok screen ->
  checkChildren (screenChildren screen) = Ok () ->
  render s = Ok screen.
Proof. unfold render. intros -> Hchildren. cbn. by rewrite Hchildren. Qed.


Lemma offered_component (e : Event) (s : State) :
  offered (render s) e = true -> offered (component s) e = true.
Proof.
  unfold render. destruct (component s) as [screen |]; [| done].
  cbn. destruct (checkChildren _) as [[] |]; [done |]. cbn. by destruct e.
Qed.

Lemma offered_offeredIn (e : Event) (s : State) :
  offered (render s) e = true -> offeredIn e s.
Proof.
  intros Hoffered. apply offered_component in Hoffered. revert Hoffered.
  unfold component. destruct (conversationComplete s) eqn:Hc.
  { destruct (resultsSection _); cbn; [destruct (objectKeysLength _); cbn |];
      destruct e; cbn; done. }
  destruct (showExtractedData s) eqn:He.
  { destruct (resultsSection _); cbn; destruct e; cbn; done. }
  unfold member.
  destruct (followUpQuestions s) as [| | | | text | [| q rest] |] eqn:Hq; cbn;
    try destruct text; try destruct (isZero _); cbn;
    destruct e; cbn; try done; intros _;
    repeat split; try done; try (intros; congruence); eauto.
Qed.

Ltac inv_done :=
  split; cbn in *;
  repeat match goal with
  | H : ?b = false |- context [?b] => rewrite H
  | H : ?b = true |- context [?b] => rewrite H
  end; cbn;
  try done; try tauto; try (intros (? & ? & ?); congruence);
  try (intros; congruence); auto.

Lemma fire_Inv (now : Z) (e : Event) (s : State) :
  Inv now s -> Inv now (fst (fire e s)).
Proof.
  intros Hinv. unfold fire. destruct (offered (render s) e) eqn:Hoffered; [| done].
  apply offered_offeredIn in Hoffered.
  destruct Hinv as [Hthread Hidle Hexcl Hnoq Hnores Hcleared].
  destruct e as [value | index value | net | net | net |]; cbn in Hoffered.
  - destruct Hoffered as (Hc & He & Hq). cbn. inv_done.
    intros (q & rest & Hrest). by destruct (Hq q rest).
  - destruct Hoffered as (Hc & He & Hq). cbn. inv_done.
  - destruct Hoffered as (Hc & He & Hq). cbn [handlerOf].
    destruct (decide (trim (symptoms s) = "")) as [Hblank | Hvalid].
    { rewrite handleSubmit_blank by done. by split. }
    rewrite handleSubmit_sent by done.
    destruct (net _ _) as [data | error]; [| inv_done].
    destruct (nullish data); [inv_done |].
    destruct (truthy _); [inv_done |].
    destruct (strictEqString _ _); inv_done.
  - destruct Hoffered as (Hc & He & q & rest & Hq). cbn [handlerOf].
    destruct (allAnswered s (q :: rest)) eqn:Hall.
    2: { rewrite (handleFollowUpSubmit_blank _ _ (q :: rest)) by done. by split. }
    rewrite (handleFollowUpSubmit_sent _ _ (q :: rest)) by done.
    destruct (net _ _) as [data | error]; [| inv_done].
    destruct (nullish data); [inv_done |].
    destruct (truthy _); [inv_done |].
    destruct (strictEqString _ _); [inv_done |].
    inv_done. intros _. apply Hcleared. by exists q, rest.
  - destruct Hoffered as (Hc & He). cbn [handlerOf].
    assert (Hq : followUpQuestions s = JArr [])
      by (apply Hnoq; rewrite He; apply orb_true_r).
    rewrite handleWebResearch_run.
    destruct (net _ _) as [data | error]; [| inv_done].
    destruct (nullish data); inv_done.
  - cbn. inv_done.
Qed.

Lemma run_Inv (now : Z) (events : list Event) (s : State) :
  Inv now s -> Inv now (fst (run events s)).
Proof.
  revert s. induction events as [| e rest IH]; intros s Hinv; [done |].
  cbn. pose proof (fire_Inv now e s Hinv) as Hstep.
  destruct (fire e s) as [s1 log1]. specialize (IH s1 Hstep).
  by destruct (run rest s1) as [s2 log2].
Qed.

Lemma reachable_run (now : Z) (events : list Event) :
  reachable now (fst (run events (initialState now))).
Proof. by exists events. Qed.

Lemma reachable_Inv (now : Z) (s : State) : reachable now s -> Inv now s.
Proof.
  intros [events <-]. apply run_Inv, Inv_initialState.
Qed.


(** ** The results section *)




Lemma checkChildren_valid (children : list JsVal) :
  checkChildren children = Ok () <-> Forall (fun child => validChild child = true) children.
Proof.
  induction children as [| child rest IH].
  { split; [constructor | done]. }
  rewrite Forall_cons, <- IH. unfold validChild. cbn [checkChildren].
  destruct (childText child); cbn; [| by intuition].
  destruct (checkChildren rest) as [[] |]; by intuition.
Qed.




(** ** Replies to an analyze request *)



Lemma fst_imap_questionInput (answers : gmap nat string) (questions : list JsVal) :
  fst <$> imap (questionInput answers) questions = questions.
Proof.
  rewrite fmap_imap. unfold questionInput. cbn -[imap].
  change (imap _ questions) with (imap (const (@id JsVal)) questions).
  by rewrite imap_const, list_fmap_id.
Qed.

(** The follow-up form is rendered when the two flags are down and the
    questions are a non-empty array of values React can render. *)
Lemma render_follow_up (s : State) (q : JsVal) (rest : list JsVal) :
  conversationComplete s = false -> showExtractedData s = false ->
  followUpQuestions s = JArr (q :: rest) ->
  Forall (fun question => validChild question = true) (q :: rest) ->
  render s = Ok (FollowUpForm (imap (questionInput (questionAnswers s)) (q :: rest))
                              (isLoading s)).
Proof.
  intros Hc Hx Hq Hvalid. apply render_Ok.
  - unfold component. by rewrite Hc, Hx, Hq.
  - cbn [screenChildren]. rewrite fst_imap_questionInput.
    by apply checkChildren_valid.
Qed.


(** ** The follow-up request *)

Lemma joinStrings_specRoundText (pairs : list (string * string)) :
  joinStrings (LF +:+ LF) (specBlock <$> pairs) = specRoundText pairs.
Proof.
  induction pairs as [| qa [| next rest] IH]; [done | done |].
  change (specBlock qa +:+ (LF +:+ LF) +:+ joinStrings (LF +:+ LF) (specBlock <$> next :: rest)
          = specBlock qa +:+ LF +:+ LF +:+ specRoundText (next :: rest)).
  by rewrite IH.
Qed.

Lemma combinedAnswers_spec (s : State) (questions : list JsVal) :
  allAnswered s questions = true ->
  combinedAnswers (questionAnswers s) questions
  = specRoundText (roundPairs s questions).
Proof.
  rewrite allAnswered_true_iff. intros Hall.
  rewrite <- joinStrings_specRoundText. unfold combinedAnswers, roundPairs.
  rewrite fmap_imap. f_equal. apply imap_ext. intros index question Hq.
  apply lookup_lt_Some in Hq. destruct (Hall index Hq) as (a & Ha & _).
  unfold answerBlock, answerAt, specBlock. cbn. by rewrite Ha.
Qed.

(** C4. When every question of the round on the page has an answer that
    does not trim to the empty string, [handleFollowUpSubmit] sends one
    request, to the analyze endpoint; its [symptoms] field is the text of
    the round in the words of the specification and its [thread_id] field
    is the identifier made at the start of the session. *)
Theorem follow_up_request_text (now : Z) (s : State) (net : Net)
    (questions : list JsVal) :
  reachable now s ->
  followUpQuestions s = JArr questions ->
  (forall index, index < length questions ->
     exists a, questionAnswers s !! index = Some a /\ trim a <> "") ->
  exists alerts,
    snd (invoke (handleFollowUpSubmit net) s) =
      Post "/api/analyze"
           (JObj [("symptoms", JStr (specRoundText (roundPairs s questions)));
                  ("thread_id", JStr (threadId (initialState now)))])
      :: (Alert <$> alerts).
Proof.
  intros Hreach Hq Hall. apply allAnswered_true_iff in Hall.
  rewrite (handleFollowUpSubmit_sent _ _ questions) by done.
  unfold answersRequest. rewrite combinedAnswers_spec by done.
  rewrite (inv_thread _ _ (reachable_Inv _ _ Hreach)).
  destruct (net _ _) as [data | error];
    [destruct (nullish data); [| destruct (truthy _); [| destruct (strictEqString _ _)]] |];
    cbn -[initialState];
    first [by exists [] | by eexists [_]].
Qed.

(** ** The thread identifier *)

Ltac carries_done :=
  split; [done |];
  repeat apply List.Forall_cons; try apply List.Forall_nil; cbn; auto.

Lemma invoke_thread (e : Event) (s : State) :
  threadId (fst (invoke (handlerOf e) s)) = threadId s /\
  Forall (carriesThread (threadId s)) (snd (invoke (handlerOf e) s)).
Proof.
  destruct e as [value | index value | net | net | net |]; cbn [handlerOf].
  - by split.
  - by split.
  - destruct (decide (trim (symptoms s) = "")) as [Hblank | Hvalid].
    { rewrite handleSubmit_blank by done. carries_done. }
    rewrite handleSubmit_sent by done.
    destruct (net _ _) as [data | error];
      [destruct (nullish data); [| destruct (truthy _); [| destruct (strictEqString _ _)]] |];
      carries_done.
  - destruct (followUpQuestions_array_dec s) as [[questions Hq] | Hq].
    2: { by rewrite handleFollowUpSubmit_not_array. }
    destruct (allAnswered s questions) eqn:Hall.
    2: { rewrite (handleFollowUpSubmit_blank _ _ questions) by done. carries_done. }
    rewrite (handleFollowUpSubmit_sent _ _ questions) by done.
    destruct (net _ _) as [data | error];
      [destruct (nullish data); [| destruct (truthy _); [| destruct (strictEqString _ _)]] |];
      carries_done.
  - rewrite handleWebResearch_run.
    destruct (net _ _) as [data | error]; [destruct (nullish data) |];
      carries_done.
  - by split.
Qed.

Lemma run_thread (events : list Event) (s : State) :
  threadId (fst (run events s)) = threadId s /\
  Forall (carriesThread (threadId s)) (snd (run events s)).
Proof.
  revert s. induction events as [| e rest IH]; intros s; [by split |].
  cbn. unfold fire. destruct (offered (render s) e).
  - destruct (invoke_thread e s) as [Hid Hlog].
    destruct (invoke (handlerOf e) s) as [s1 log1]. cbn in Hid, Hlog.
    destruct (IH s1) as [Hid' Hlog']. destruct (run rest s1) as [s2 log2].
    cbn in *. rewrite Hid in *. split; [done |]. by apply Forall_app.
  - destruct (IH s) as [Hid' Hlog']. by destruct (run rest s) as [s2 log2].
Qed.

(** C5. The thread identifier is made by the first render, from the clock
    reading of that moment; after any sequence of events the state still
    holds it, and every request in the log of the session, to the analyze
    or the research endpoint, carries it. *)
Theorem thread_identifier_fixed (now : Z) (events : list Event) :
  threadId (initialState now) = "thread_" +:+ pretty now /\
  threadId (fst (run events (initialState now))) = threadId (initialState now) /\
  Forall (carriesThread (threadId (initialState now)))
         (snd (run events (initialState now))).
Proof.
  split; [done |]. apply run_thread.
Qed.

(** ** The two flags *)

(** C9. In every state of a session the two flags are not both set, and
    while [conversationComplete] is set there is no follow-up question; the
    record type itself has states with both flags set. *)
Theorem flags_exclusive_when_reachable (now : Z) (events : list Event) :
  (conversationComplete (fst (run events (initialState now)))
   && showExtractedData (fst (run events (initialState now))) = false) /\
  (conversationComplete (fst (run events (initialState now))) = true ->
   followUpQuestions (fst (run events (initialState now))) = JArr []) /\
  (exists s : State, conversationComplete s && showExtractedData s = true).
Proof.
  pose proof (run_Inv now events _ (Inv_initialState now)) as Hinv.
  split; [apply Hinv |]. split.
  - intros Hc. apply (inv_no_questions _ _ Hinv). by rewrite Hc.
  - by exists (mkState "" 0 false true (JArr []) "" ∅ (JObj []) true (JObj [])).
Qed.

(** The exclusion rests on [render]: it offers each handler only in its own
    stage. Run from a Complete state, where no form is on the page,
    [handleSubmit] would leave both flags set on an extracted reply. *)
Remark handleSubmit_outside_its_screen :
  let s := fst (invoke (handleSubmit (Example.replyWith Example.extractedReply))
                       (withSymptoms "again" Example.completed)) in
  conversationComplete s && showExtractedData s = true /\
  offered (render (withSymptoms "again" Example.completed))
          (SubmitSymptoms (Example.replyWith Example.extractedReply)) = false.
Proof. vm_compute. done. Qed.

(** ** Reset *)

(** C7. In any state of a session, so in the Complete stage where the
    reset button is, [resetConversation] leaves exactly the state of the
    first render: the eight fields it writes are back at their initial
    values, [isLoading], which it does not write, is false as it is between
    any two events, and the thread identifier is the one the state had. The
    stage is Collecting and the screen is the empty symptom form. *)
Theorem reset_restores_initial_state (now : Z) (s : State) :
  reachable now s ->
  invoke resetConversation s = (initialState now, []) /\
  threadId (fst (invoke resetConversation s)) = threadId s /\
  stage (fst (invoke resetConversation s)) = Collecting /\
  render (fst (invoke resetConversation s)) = Ok (SymptomForm "" 0 false).
Proof.
  intros Hreach. apply reachable_Inv in Hreach as [Hid Hidle _ _ _ _].
  rewrite resetConversation_run, Hidle, Hid. by repeat split.
Qed.

(** ** Research *)

(** C8, as amended. When the research request is answered with a body
    other than [null], [handleWebResearch] stores the reply's
    [extracted_data] and its [web_research_results] (the empty object in
    place of a falsy value), sets [conversationComplete], clears
    [showExtractedData], and the stage is Complete; nothing else changes and
    a single request was sent. *)
Theorem research_success_completes (net : Net) (s : State) (data : JsVal) :
  net "/api/web-research" (researchRequest s) = Resolved data ->
  nullish data = false ->
  invoke (handleWebResearch net) s =
    (withIsLoading false (researchedWith data s),
     [Post "/api/web-research" (researchRequest s)]) /\
  extractedData (fst (invoke (handleWebResearch net) s)) = prop data "extracted_data" /\
  webResearchResults (fst (invoke (handleWebResearch net) s))
    = orElse (prop data "web_research_results") (JObj []) /\
  (truthy (prop data "web_research_results") = true ->
   webResearchResults (fst (invoke (handleWebResearch net) s))
     = prop data "web_research_results") /\
  conversationComplete (fst (invoke (handleWebResearch net) s)) = true /\
  showExtractedData (fst (invoke (handleWebResearch net) s)) = false /\
  stage (fst (invoke (handleWebResearch net) s)) = Complete.
Proof.
  intros Hnet Hdata. rewrite handleWebResearch_run, Hnet, Hdata.
  repeat split; try done. intros Htruthy. cbn. unfold orElse. by rewrite Htruthy.
Qed.

(** ** Missing fields of a reply *)




(** C8, counterexample. A research request answered with the results [""]:
    the empty object is stored, not the reply's value. A research request
    answered with the body [null]: the flag [conversationComplete] is set
    and the stage is Complete, nothing of a reply is stored, and the alert
    of a failed research is shown. *)
Lemma research_reply_not_stored :
  (Example.replyWith Example.emptyResultsReply "/api/web-research"
     (researchRequest Example.extracted) = Resolved Example.emptyResultsReply /\
   prop Example.emptyResultsReply "web_research_results" = JStr "" /\
   webResearchResults
     (fst (invoke (handleWebResearch (Example.replyWith Example.emptyResultsReply))
                  Example.extracted)) = JObj [])
  /\
  (Example.replyWith JNull "/api/web-research" (researchRequest Example.extracted)
   = Resolved JNull /\
   stage Example.extracted = Extracted /\
   stage (fst (invoke (handleWebResearch (Example.replyWith JNull)) Example.extracted))
   = Complete /\
   extractedData
     (fst (invoke (handleWebResearch (Example.replyWith JNull)) Example.extracted))
   = extractedData Example.extracted /\
   webResearchResults
     (fst (invoke (handleWebResearch (Example.replyWith JNull)) Example.extracted))
   = JObj [] /\
   snd (invoke (handleWebResearch (Example.replyWith JNull)) Example.extracted)
   = [Post "/api/web-research" (researchRequest Example.extracted);
      Alert "Web research failed. Please try again."]).
Proof. vm_compute. done. Qed.

(** ** The theorems at work on the example session *)

(** Each theorem that has premises is applied once to the example session,
    its premises computed. *)

Lemma local_validation_blocks_submission_witness :
  trim (symptoms Example.opened) = "" /\
  invoke (handleSubmit Example.offline) Example.opened
    = (Example.opened, [Alert "Please describe your symptoms."]) /\
  followUpQuestions Example.asked = JArr [JStr "How severe is the fever?"] /\
  questionAnswers Example.asked !! 0 = None /\
  invoke (handleFollowUpSubmit Example.offline) Example.asked
    = (Example.asked, [Alert "Please answer all questions before submitting."]).
Proof.
  destruct (local_validation_blocks_submission Example.offline Example.opened)
    as [Hsubmit _].
  destruct (local_validation_blocks_submission Example.offline Example.asked)
    as [_ Hfollow].
  split; [reflexivity |]. split; [apply Hsubmit; reflexivity |].
  split; [reflexivity |]. split; [reflexivity |].
  apply (Hfollow [JStr "How severe is the fever?"] 0);
    [reflexivity | cbn; lia | left; reflexivity].
Defined.




Lemma follow_up_request_text_witness :
  reachable 1700000000000 Example.answered /\
  exists alerts,
    snd (invoke (handleFollowUpSubmit Example.offline) Example.answered) =
      Post "/api/analyze"
           (JObj [("symptoms", JStr ("Q: How severe is the fever?" +:+ LF +:+ "A: mild"));
                  ("thread_id", JStr "thread_1700000000000")])
      :: (Alert <$> alerts).
Proof.
  pose proof (reachable_run 1700000000000 Example.answering : reachable _ Example.answered) as Hreach.
  split; [exact Hreach |].
  apply (follow_up_request_text 1700000000000 Example.answered Example.offline
           [JStr "How severe is the fever?"] Hreach eq_refl).
  intros [| index] Hlt; [| cbn in Hlt; lia].
  exists "mild". split; [reflexivity | discriminate].
Defined.

Lemma reset_restores_initial_state_witness :
  reachable 1700000000000 Example.completed /\
  stage Example.completed = Complete /\
  invoke resetConversation Example.completed = (Example.opened, []) /\
  render (fst (invoke resetConversation Example.completed))
    = Ok (SymptomForm "" 0 false).
Proof.
  pose proof (reachable_run 1700000000000 Example.completing : reachable _ Example.completed) as Hreach.
  split; [exact Hreach |]. split; [reflexivity |].
  destruct (reset_restores_initial_state 1700000000000 Example.completed Hreach)
    as (Hstate & _ & _ & Hscreen).
  split; [exact Hstate | exact Hscreen].
Defined.

Lemma research_success_completes_witness :
  stage Example.extracted = Extracted /\
  stage (fst (invoke (handleWebResearch (Example.replyWith Example.researchReply))
                     Example.extracted)) = Complete /\
  webResearchResults
    (fst (invoke (handleWebResearch (Example.replyWith Example.researchReply))
                 Example.extracted))
    = JObj [("confidence_level", JStr "high")].
Proof.
  split; [reflexivity |].
  destruct (research_success_completes (Example.replyWith Example.researchReply)
              Example.extracted Example.researchReply eq_refl eq_refl)
    as (_ & _ & _ & Hresults & _ & _ & Hstage).
  split; [exact Hstage | exact (Hresults eq_refl)].
Defined.

Lemma flags_exclusive_when_reachable_witness :
  conversationComplete (fst (run Example.completing (initialState 1700000000000))) = true /\
  followUpQuestions (fst (run Example.completing (initialState 1700000000000))) = JArr [].
Proof.
  destruct (flags_exclusive_when_reachable 1700000000000 Example.completing)
    as (_ & Hquestions & _).
  split; [reflexivity | apply Hquestions; reflexivity].
Defined.


(** * Further properties of the controller *)

(** ** The character counter *)

Lemma invoke_charCount (e : Event) (s : State) :
  charCount s = String.length (symptoms s) ->
  charCount (fst (invoke (handlerOf e) s))
  = String.length (symptoms (fst (invoke (handlerOf e) s))).
Proof.
  intros Hcount.
  destruct e as [value | index value | net | net | net |]; cbn [handlerOf].
  - done.
  - done.
  - destruct (decide (trim (symptoms s) = "")) as [Hblank | Hvalid].
    { by rewrite handleSubmit_blank. }
    rewrite handleSubmit_sent by done.
    destruct (net _ _) as [data | error]; [| done].
    destruct (nullish data); [done |].
    destruct (truthy _); [done |]. by destruct (strictEqString _ _).
  - destruct (followUpQuestions_array_dec s) as [[questions Hq] | Hq].
    2: { by rewrite handleFollowUpSubmit_not_array. }
    destruct (allAnswered s questions) eqn:Hall.
    2: { by rewrite (handleFollowUpSubmit_blank _ _ questions). }
    rewrite (handleFollowUpSubmit_sent _ _ questions) by done.
    destruct (net _ _) as [data | error]; [| done].
    destruct (nullish data); [done |].
    destruct (truthy _); [done |]. by destruct (strictEqString _ _).
  - rewrite handleWebResearch_run.
    destruct (net _ _) as [data | error]; [| done]. by destruct (nullish data).
  - done.
Qed.

Lemma run_charCount (events : list Event) (s : State) :
  charCount s = String.length (symptoms s) ->
  charCount (fst (run events s)) = String.length (symptoms (fst (run events s))).
Proof.
  revert s. induction events as [| e rest IH]; intros s Hcount; [done |].
  cbn. unfold fire. destruct (offered (render s) e).
  - pose proof (invoke_charCount e s Hcount) as Hstep.
    destruct (invoke (handlerOf e) s) as [s1 log1]. specialize (IH s1 Hstep).
    by destruct (run rest s1) as [s2 log2].
  - specialize (IH s Hcount). by destruct (run rest s) as [s2 log2].
Qed.

(** X1. In every state of a session the character counter is the length of
    the symptom text, and the symptom form, whenever it is the screen,
    shows that text with that length. *)
Theorem charCount_is_length (now : Z) (events : list Event) :
  charCount (fst (run events (initialState now)))
  = String.length (symptoms (fst (run events (initialState now)))) /\
  forall value count disabled,
    render (fst (run events (initialState now)))
      = Ok (SymptomForm value count disabled) ->
    value = symptoms (fst (run events (initialState now))) /\
    count = String.length value.
Proof.
  pose proof (run_charCount events (initialState now) eq_refl) as Hcount.
  split; [done |]. intros value count disabled Hrender.
  apply render_component in Hrender. revert Hrender. unfold component.
  destruct (conversationComplete _).
  { destruct (resultsSection _); cbn; [destruct (objectKeysLength _) |]; done. }
  destruct (showExtractedData _).
  { by destruct (resultsSection _). }
  destruct (member _ _) as [len |]; cbn; [| done].
  destruct (isZero len); cbn.
  - intros [= <- <- _]. done.
  - by destruct (asArray _).
Qed.

(** ** What the symptom form sends *)

Lemma trimEnd_empty_iff (text : string) :
  trimEnd text = "" <-> allWhiteSpace text = true.
Proof.
  induction text as [| c rest IH]; cbn [trimEnd allWhiteSpace]; [done |].
  rewrite andb_true_iff, <- IH.
  destruct (trimEnd rest); destruct (isWhiteSpace c); intuition congruence.
Qed.

Lemma trimStart_allWhiteSpace (text : string) :
  allWhiteSpace (trimStart text) = allWhiteSpace text.
Proof.
  induction text as [| c rest IH]; cbn [trimStart allWhiteSpace]; [done |].
  destruct (isWhiteSpace c) eqn:Hc; cbn [allWhiteSpace]; [done | by rewrite Hc].
Qed.

Lemma trim_empty_iff (text : string) :
  trim text = "" <-> allWhiteSpace text = true.
Proof.
  unfold trim. by rewrite trimEnd_empty_iff, trimStart_allWhiteSpace.
Qed.

(** X2. [handleSubmit] calls the network exactly when the symptom text has
    a character that is not white space. A text of white space only (the
    empty text too) gets the alert and nothing else; any other text is sent
    as it was typed, white space at its ends included, in one request that
    at most one alert follows. *)
Theorem handleSubmit_sends_unless_blank (net : Net) (s : State) :
  (allWhiteSpace (symptoms s) = true ->
   invoke (handleSubmit net) s = (s, [Alert "Please describe your symptoms."]))
  /\
  (allWhiteSpace (symptoms s) = false ->
   exists alerts,
     snd (invoke (handleSubmit net) s)
       = Post "/api/analyze"
              (JObj [("symptoms", JStr (symptoms s));
                     ("thread_id", JStr (threadId s))])
         :: (Alert <$> alerts)
     /\ length alerts <= 1).
Proof.
  split; intros Hblank.
  - apply handleSubmit_blank. by apply trim_empty_iff.
  - rewrite handleSubmit_sent.
    2: { rewrite trim_empty_iff. by rewrite Hblank. }
    destruct (net _ _) as [data | error];
      [destruct (nullish data); [| destruct (truthy _); [| destruct (strictEqString _ _)]] |];
      first [ exists []; split; [reflexivity | cbn; lia]
            | eexists [_]; split; [reflexivity | cbn; lia] ].
Qed.

(** ** Typing an answer *)

Lemma render_FollowUpForm (s : State) (inputs : list (JsVal * string))
    (disabled : bool) :
  render s = Ok (FollowUpForm inputs disabled) ->
  conversationComplete s = false /\ showExtractedData s = false /\
  disabled = isLoading s /\
  exists q rest,
    followUpQuestions s = JArr (q :: rest) /\
    inputs = imap (questionInput (questionAnswers s)) (q :: rest) /\
    Forall (fun question => validChild question = true) (q :: rest).
Proof.
  intros Hrender. pose proof (render_children _ _ Hrender) as Hchildren.
  apply render_component in Hrender.
  assert (Hform : conversationComplete s = false /\ showExtractedData s = false /\
                  disabled = isLoading s /\
                  exists q rest,
                    followUpQuestions s = JArr (q :: rest) /\
                    inputs = imap (questionInput (questionAnswers s)) (q :: rest)).
  { revert Hrender. unfold component. destruct (conversationComplete s).
    { destruct (resultsSection _); cbn; [destruct (objectKeysLength _) |]; done. }
    destruct (showExtractedData s).
    { by destruct (resultsSection _). }
    unfold member.
    destruct (followUpQuestions s) as [| | | | text | [| q rest] |]; cbn; try done.
    - by destruct text.
    - intros [= <- <-]. repeat split. by exists q, rest.
    - by destruct (isZero _). }
  destruct Hform as (Hc & Hx & Hidle & q & rest & Hq & ->).
  repeat split; try done. exists q, rest. repeat split; try done.
  apply checkChildren_valid. cbn [screenChildren] in Hchildren.
  by rewrite fst_imap_questionInput in Hchildren.
Qed.

(** X3. On the follow-up form, typing [value] into the input of a question
    stores it under the index of the question and changes nothing else;
    the next render shows [value] in that input and every other input as
    before. An index past the last question is stored as well and shows
    nowhere. *)
Theorem answer_change_shows_in_its_input (s : State) (questionIndex : nat)
    (value : string) (inputs : list (JsVal * string)) (disabled : bool) :
  render s = Ok (FollowUpForm inputs disabled) ->
  invoke (handleQuestionAnswerChange questionIndex value) s
    = (withQuestionAnswers (<[questionIndex := value]> (questionAnswers s)) s, [])
  /\
  render (fst (invoke (handleQuestionAnswerChange questionIndex value) s))
    = Ok (FollowUpForm
            (alter (fun input => (fst input, value)) questionIndex inputs)
            disabled).
Proof.
  intros Hrender. split; [done |].
  destruct (render_FollowUpForm _ _ _ Hrender)
    as (Hc & Hx & -> & q & rest & Hq & -> & Hvalid).
  change (fst (invoke (handleQuestionAnswerChange questionIndex value) s))
    with (withQuestionAnswers (<[questionIndex := value]> (questionAnswers s)) s).
  rewrite (render_follow_up _ q rest) by done. cbn [isLoading withQuestionAnswers questionAnswers].
  f_equal. f_equal. apply list_eq. intros i.
  rewrite list_lookup_imap, list_lookup_alter.
  destruct (decide (questionIndex = i)) as [-> | Hne];
    rewrite list_lookup_imap; destruct ((q :: rest) !! i) as [question |]; cbn;
    try done; unfold questionInput; cbn.
  - by rewrite lookup_insert_eq.
  - by rewrite lookup_insert_ne.
Qed.

(** ** Filling in a round and sending it *)

Lemma run_app (events later : list Event) (s : State) :
  run (events ++ later) s
  = (fst (run later (fst (run events s))),
     snd (run events s) ++ snd (run later (fst (run events s)))).
Proof.
  revert s. induction events as [| e rest IH]; intros s; cbn.
  - by destruct (run later s).
  - destruct (fire e s) as [s1 log1]. rewrite IH.
    destruct (run rest s1) as [s2 log2]. cbn. by rewrite app_assoc.
Qed.

Lemma storeAnswers_before (first : nat) (answers : list string)
    (stored : gmap nat string) (index : nat) :
  index < first ->
  storeAnswers first answers stored !! index = stored !! index.
Proof.
  revert first stored. induction answers as [| a rest IH]; intros first stored Hlt;
    cbn; [done |].
  rewrite IH by lia. apply lookup_insert_ne. lia.
Qed.

Lemma storeAnswers_lookup (first : nat) (answers : list string)
    (stored : gmap nat string) (index : nat) (a : string) :
  answers !! index = Some a ->
  storeAnswers first answers stored !! (first + index) = Some a.
Proof.
  revert first stored index.
  induction answers as [| a' rest IH]; intros first stored index Hindex; [done |].
  destruct index as [| index]; cbn in *.
  - injection Hindex as ->. rewrite Nat.add_0_r, storeAnswers_before by lia.
    apply lookup_insert_eq.
  - rewrite <- Nat.add_succ_comm. by apply IH.
Qed.

Lemma run_typeAnswersFrom (first : nat) (answers : list string) (s : State)
    (questions : list JsVal) :
  conversationComplete s = false -> showExtractedData s = false ->
  followUpQuestions s = JArr questions ->
  Forall (fun question => validChild question = true) questions ->
  first + length answers <= length questions ->
  run (typeAnswersFrom first answers) s
  = (withQuestionAnswers (storeAnswers first answers (questionAnswers s)) s, []).
Proof.
  revert first s.
  induction answers as [| a rest IH]; intros first s Hc Hx Hq Hvalid Hlen.
  { by destruct s. }
  unfold typeAnswersFrom. rewrite imap_cons.
  change (imap _ rest) with (imap (fun index => TypeAnswer (first + S index)) rest).
  rewrite (imap_ext _ (fun index => TypeAnswer (S first + index))).
  2: { intros index a' _. f_equal. lia. }
  fold (typeAnswersFrom (S first) rest). cbn [run length] in *.
  destruct questions as [| q more]; [cbn in Hlen; lia |].
  unfold fire. rewrite (render_follow_up _ q more) by done. cbn [offered].
  rewrite length_imap, Nat.add_0_r.
  destruct (first <? length (q :: more)) eqn:Hfirst.
  2: { apply Nat.ltb_ge in Hfirst. lia. }
  cbn [handlerOf].
  change (invoke (handleQuestionAnswerChange first a) s)
    with (withQuestionAnswers (<[first := a]> (questionAnswers s)) s,
          @nil Effect).
  cbv beta iota.
  rewrite (IH (S first) (withQuestionAnswers (<[first := a]> (questionAnswers s)) s)
             Hc Hx Hq Hvalid) by lia.
  done.
Qed.

Lemma roundPairs_zip (s : State) (questions : list JsVal) (answers : list string) :
  length answers = length questions ->
  (forall index a, answers !! index = Some a -> questionAnswers s !! index = Some a) ->
  roundPairs s questions = zip (toString <$> questions) answers.
Proof.
  intros Hlen Hstored. unfold roundPairs. apply list_eq. intros index.
  rewrite list_lookup_imap, lookup_zip_with, list_lookup_fmap.
  destruct (questions !! index) as [question |] eqn:Hquestion; [| done].
  apply lookup_lt_Some in Hquestion. rewrite <- Hlen in Hquestion.
  apply lookup_lt_is_Some_2 in Hquestion as [a Ha].
  cbn. by rewrite Ha, (Hstored _ _ Ha).
Qed.

(** X4. On the follow-up form with its button enabled, after the user has
    typed into every input, in order, an answer that has a character other
    than white space, submitting sends one request; its text is the
    questions paired with the typed answers, in the [Q:]/[A:] block format
    with a blank line between blocks. *)
Theorem typed_answers_are_sent (net : Net) (s : State)
    (inputs : list (JsVal * string)) (answers : list string) :
  render s = Ok (FollowUpForm inputs false) ->
  length answers = length inputs ->
  Forall (fun a => allWhiteSpace a = false) answers ->
  exists alerts,
    snd (run (typeAnswersFrom 0 answers ++ [SubmitAnswers net]) s)
      = Post "/api/analyze"
             (JObj [("symptoms",
                     JStr (specRoundText
                             (zip (toString <$> (fst <$> inputs)) answers)));
                    ("thread_id", JStr (threadId s))])
        :: (Alert <$> alerts).
Proof.
  intros Hrender Hlen Hgood.
  destruct (render_FollowUpForm _ _ _ Hrender)
    as (Hc & Hx & Hidle & q & rest & Hq & -> & Hvalid).
  rewrite length_imap in Hlen.
  rewrite fst_imap_questionInput.
  rewrite run_app, (run_typeAnswersFrom 0 answers s (q :: rest)) by (done || lia).
  set (s' := withQuestionAnswers (storeAnswers 0 answers (questionAnswers s)) s).
  cbn [fst snd app run]. unfold fire.
  rewrite (render_follow_up s' q rest) by done.
  change (isLoading s') with (isLoading s). rewrite <- Hidle. cbn [offered negb handlerOf].
  assert (Hstored : forall index a, answers !! index = Some a ->
                      questionAnswers s' !! index = Some a).
  { intros index a Ha. apply (storeAnswers_lookup 0 answers _ index a Ha). }
  assert (Hall : allAnswered s' (q :: rest) = true).
  { apply allAnswered_true_iff. intros index Hindex. rewrite <- Hlen in Hindex.
    apply lookup_lt_is_Some_2 in Hindex as [a Ha]. exists a.
    split; [by apply Hstored |]. rewrite trim_empty_iff.
    rewrite Forall_lookup in Hgood. by rewrite (Hgood _ _ Ha). }
  rewrite (handleFollowUpSubmit_sent _ _ (q :: rest)) by done.
  unfold answersRequest. rewrite combinedAnswers_spec by done.
  rewrite (roundPairs_zip s' (q :: rest) answers) by done.
  change (threadId s') with (threadId s).
  destruct (net _ _) as [data | error];
    [destruct (nullish data); [| destruct (truthy _); [| destruct (strictEqString _ _)]] |];
    cbn; first [by exists [] | by eexists [_]].
Qed.

(** ** The alert of a failed analysis *)


(** ** Requests and user actions *)

Lemma invoke_requests (e : Event) (s : State) :
  requests (snd (invoke (handlerOf e) s)) <= (if asksNetwork e then 1 else 0).
Proof.
  destruct e as [value | index value | net | net | net |]; cbn [handlerOf asksNetwork].
  - done.
  - done.
  - destruct (decide (trim (symptoms s) = "")) as [Hblank | Hvalid].
    { rewrite handleSubmit_blank by done. cbn. lia. }
    rewrite handleSubmit_sent by done.
    destruct (net _ _) as [data | error];
      [destruct (nullish data); [| destruct (truthy _); [| destruct (strictEqString _ _)]] |];
      cbn; lia.
  - destruct (followUpQuestions_array_dec s) as [[questions Hq] | Hq].
    2: { rewrite handleFollowUpSubmit_not_array by done. cbn. lia. }
    destruct (allAnswered s questions) eqn:Hall.
    2: { rewrite (handleFollowUpSubmit_blank _ _ questions) by done. cbn. lia. }
    rewrite (handleFollowUpSubmit_sent _ _ questions) by done.
    destruct (net _ _) as [data | error];
      [destruct (nullish data); [| destruct (truthy _); [| destruct (strictEqString _ _)]] |];
      cbn; lia.
  - rewrite handleWebResearch_run.
    destruct (net _ _) as [data | error]; [destruct (nullish data) |]; cbn; lia.
  - done.
Qed.

Lemma requests_app (log later : list Effect) :
  requests (log ++ later) = requests log + requests later.
Proof. unfold requests. by rewrite List.filter_app, length_app. Qed.

(** X6. A session sends no more requests than the user made submissions
    and research clicks: a handler sends at most one request, whether the
    request succeeds or fails, and typing and resetting send none. *)
Theorem at_most_one_request_per_action (events : list Event) (s : State) :
  requests (snd (run events s)) <= length (List.filter asksNetwork events).
Proof.
  revert s. induction events as [| e rest IH]; intros s; [done |].
  cbn [run List.filter].
  assert (Hstep : requests (snd (fire e s)) <= (if asksNetwork e then 1 else 0)).
  { unfold fire. destruct (offered (render s) e); [apply invoke_requests |].
    cbn. lia. }
  destruct (fire e s) as [s1 log1]. specialize (IH s1).
  destruct (run rest s1) as [s2 log2]. cbn [snd] in *.
  rewrite requests_app. destruct (asksNetwork e); cbn [length]; lia.
Qed.

(** ** The stages *)

Lemma mayFollow_refl (a : Stage) : mayFollow a a = true.
Proof. by destruct a. Qed.

(** X7. One event moves the conversation along these edges only: from
    Collecting anywhere, from Extracted to Complete, from Complete to
    Collecting, or not at all; and the stage changes only on a submission,
    a research click or a reset. *)
Theorem stage_changes_along_the_flow (e : Event) (s : State) :
  mayFollow (stage s) (stage (fst (fire e s))) = true /\
  (stage (fst (fire e s)) <> stage s ->
   asksNetwork e = true \/ e = StartNewAnalysis).
Proof.
  unfold fire. destruct (offered (render s) e) eqn:Hoffered.
  2: { split; [apply mayFollow_refl | done]. }
  apply offered_offeredIn in Hoffered.
  destruct e as [value | index value | net | net | net |]; cbn in Hoffered;
    cbn [handlerOf asksNetwork].
  - split; [apply mayFollow_refl | done].
  - split; [apply mayFollow_refl | done].
  - destruct Hoffered as (Hc & Hx & _). split; [| by left].
    unfold stage at 1. by rewrite Hc, Hx.
  - destruct Hoffered as (Hc & Hx & _). split; [| by left].
    unfold stage at 1. by rewrite Hc, Hx.
  - destruct Hoffered as (Hc & Hx). split; [| by left].
    rewrite handleWebResearch_run. unfold stage at 1. rewrite Hc, Hx.
    destruct (net _ _) as [data | error]; [by destruct (nullish data) |].
    unfold stage. cbn. by rewrite Hc, Hx.
  - split; [| by right]. unfold stage at 1. by rewrite Hoffered.
Qed.

(** ** Where results are held *)

Lemma fire_collecting_clean (e : Event) (s : State) :
  (stage s = Collecting -> extractedData s = JObj []) ->
  stage (fst (fire e s)) = Collecting ->
  extractedData (fst (fire e s)) = JObj [].
Proof.
  intros Hclean. unfold fire. destruct (offered (render s) e) eqn:Hoffered; [| done].
  apply offered_offeredIn in Hoffered.
  destruct e as [value | index value | net | net | net |]; cbn in Hoffered;
    cbn [handlerOf].
  - exact Hclean.
  - exact Hclean.
  - destruct Hoffered as (Hc & Hx & _).
    assert (Hdata : extractedData s = JObj [])
      by (apply Hclean; unfold stage; by rewrite Hc, Hx).
    destruct (decide (trim (symptoms s) = "")) as [Hblank | Hvalid].
    { by rewrite handleSubmit_blank. }
    rewrite handleSubmit_sent by done.
    destruct (net _ _) as [data | error]; [| done].
    destruct (nullish data); [done |].
    destruct (truthy _); [done |].
    destruct (strictEqString _ _); [| done].
    unfold stage. cbn. by rewrite Hc.
  - destruct Hoffered as (Hc & Hx & q & rest & Hq).
    assert (Hdata : extractedData s = JObj [])
      by (apply Hclean; unfold stage; by rewrite Hc, Hx).
    destruct (allAnswered s (q :: rest)) eqn:Hall.
    2: { by rewrite (handleFollowUpSubmit_blank _ _ (q :: rest)). }
    rewrite (handleFollowUpSubmit_sent _ _ (q :: rest)) by done.
    destruct (net _ _) as [data | error]; [| done].
    destruct (nullish data); [done |].
    destruct (truthy _); [done |].
    destruct (strictEqString _ _); [| done].
    unfold stage. cbn. by rewrite Hc.
  - destruct Hoffered as (Hc & Hx). rewrite handleWebResearch_run.
    destruct (net _ _) as [data | error]; [by destruct (nullish data) |].
    unfold stage. cbn. by rewrite Hc, Hx.
  - done.
Qed.

Lemma run_collecting_clean (events : list Event) (s : State) :
  (stage s = Collecting -> extractedData s = JObj []) ->
  stage (fst (run events s)) = Collecting ->
  extractedData (fst (run events s)) = JObj [].
Proof.
  revert s. induction events as [| e rest IH]; intros s Hclean; [done |].
  cbn. pose proof (fire_collecting_clean e s Hclean) as Hstep.
  destruct (fire e s) as [s1 log1]. specialize (IH s1 Hstep).
  by destruct (run rest s1) as [s2 log2].
Qed.

(** X8. In a session the Collecting stage holds no results: the extracted
    data and the research results are both the empty object there, so
    nothing of a finished conversation is left once the form is back. The
    research results are the empty object in the Extracted stage too: they
    are held in the Complete stage only. *)
Theorem results_only_after_extraction (now : Z) (events : list Event) :
  (stage (fst (run events (initialState now))) = Collecting ->
   extractedData (fst (run events (initialState now))) = JObj [] /\
   webResearchResults (fst (run events (initialState now))) = JObj []) /\
  (stage (fst (run events (initialState now))) = Extracted ->
   webResearchResults (fst (run events (initialState now))) = JObj []).
Proof.
  pose proof (run_Inv now events _ (Inv_initialState now)) as Hinv.
  assert (Hnone : stage (fst (run events (initialState now))) <> Complete ->
                  webResearchResults (fst (run events (initialState now))) = JObj []).
  { intros Hstage. apply (inv_no_research _ _ Hinv).
    unfold stage in Hstage. by destruct (conversationComplete _). }
  split.
  - intros Hstage. split; [by apply run_collecting_clean |].
    apply Hnone. by rewrite Hstage.
  - intros Hstage. apply Hnone. by rewrite Hstage.
Qed.

(** ** The debug endpoint *)

(** X9. Every request of a session goes to the analyze or to the research
    endpoint. The request that [debugFunctionality] makes, to
    [/api/research-debug], is in the log of no session: nothing in the
    component calls it. *)
Theorem debug_endpoint_never_called (events : list Event) (s : State) :
  (forall url body, Post url body ∈ snd (run events s) ->
     url = "/api/analyze" \/ url = "/api/web-research") /\
  (forall net data s' effect,
     effect ∈ snd (debugFunctionality net data s') ->
     effect ∉ snd (run events s)).
Proof.
  destruct (run_thread events s) as [_ Hlog]. rewrite Forall_forall in Hlog.
  assert (Hurls : forall url body, Post url body ∈ snd (run events s) ->
                    url = "/api/analyze" \/ url = "/api/web-research").
  { intros url body Hin. by destruct (Hlog _ Hin). }
  split; [exact Hurls |].
  intros net data s' effect Hdebug Hsession.
  assert (effect = Post "/api/research-debug" (JObj [("symptom", prop data "symptom")]))
    as ->.
  { unfold debugFunctionality, Api.post, member, liftRes, perform, throw,
      mbind, M_bind, mret, M_ret in Hdebug.
    destruct (nullish data); cbn in Hdebug.
    { by apply elem_of_nil in Hdebug. }
    destruct (net _ _); cbn in Hdebug;
      apply elem_of_cons in Hdebug as [-> | Hdebug];
      first [done | by apply elem_of_nil in Hdebug]. }
  by destruct (Hurls _ _ Hsession).
Qed.

(** ** Replies that the screens can show *)





(** ** Handlers suspended at their request *)

Lemma resume_AfterSubmit (outcome : Outcome) (s : State) :
  resume (mkPending AfterSubmit outcome) s =
    match outcome with
    | Resolved data =>
        if nullish data then
          (Ok (), withIsLoading false s, [Alert "Analysis failed. Please try again."])
        else if truthy (prop data "is_complete") then
          (Ok (), withIsLoading false (completeWith data s), [])
        else if strictEqString (prop data "status") "extracted" then
          (Ok (), withIsLoading false (extractedWith data s), [])
        else
          (Ok (), withIsLoading false (withCharCount 0 (withSymptoms "" (askWith data s))),
           [])
    | Rejected error =>
        (Ok (), withIsLoading false s, [Alert (analysisFailedMessage error)])
    end.
Proof.
  unfold resume, settled. cbn [waiting settlesTo]. run_handler.
  destruct outcome as [data | error]; cbn.
  - destruct (nullish data); cbn; [done |].
    destruct (truthy (prop data "is_complete")); cbn; [done |].
    destruct (strictEqString _ _); cbn; done.
  - destruct error; done.
Qed.

Lemma resume_AfterFollowUp (outcome : Outcome) (s : State) :
  resume (mkPending AfterFollowUp outcome) s =
    match outcome with
    | Resolved data =>
        if nullish data then
          (Ok (), withIsLoading false s,
           [Alert "Failed to submit answers. Please try again."])
        else if truthy (prop data "is_complete") then
          (Ok (), withIsLoading false (completeWith data s), [])
        else if strictEqString (prop data "status") "extracted" then
          (Ok (), withIsLoading false (extractedWith data s), [])
        else
          (Ok (), withIsLoading false (askWith data s), [])
    | Rejected error =>
        (Ok (), withIsLoading false s,
         [Alert "Failed to submit answers. Please try again."])
    end.
Proof.
  unfold resume, settled. cbn [waiting settlesTo]. run_handler.
  destruct outcome as [data | error]; cbn; [| done].
  destruct (nullish data); cbn; [done |].
  destruct (truthy (prop data "is_complete")); cbn; [done |].
  destruct (strictEqString _ _); cbn; done.
Qed.

Lemma resume_AfterResearch (outcome : Outcome) (s : State) :
  resume (mkPending AfterResearch outcome) s =
    match outcome with
    | Resolved data =>
        if nullish data then
          (Ok (),
           withIsLoading false
             (withShowExtractedData false (withConversationComplete true s)),
           [Alert "Web research failed. Please try again."])
        else
          (Ok (), withIsLoading false (researchedWith data s), [])
    | Rejected error =>
        (Ok (), withIsLoading false s,
         [Alert "Web research failed. Please try again."])
    end.
Proof.
  unfold resume, settled, researchReply. cbn [waiting settlesTo]. run_handler.
  destruct outcome as [data | error]; cbn; [| done].
  destruct (nullish data); cbn; done.
Qed.

Lemma handleSubmitStart_blank (net : Net) (s : State) :
  trim (symptoms s) = "" ->
  handleSubmitStart net s s
  = (Ok None, s, [Alert "Please describe your symptoms."]).
Proof.
  intros Hblank. unfold handleSubmitStart.
  apply trim_blank_iff in Hblank. by rewrite Hblank.
Qed.

Lemma handleSubmitStart_sent (net : Net) (s : State) :
  trim (symptoms s) <> "" ->
  handleSubmitStart net s s
  = (Ok (Some (mkPending AfterSubmit (net "/api/analyze" (symptomsRequest s)))),
     withIsLoading true s,
     [Post "/api/analyze" (symptomsRequest s)]).
Proof.
  intros Hvalid. unfold handleSubmitStart.
  destruct (negb (truthy (JStr (trim (symptoms s))))) eqn:Hblank.
  { by apply trim_blank_iff in Hblank. }
  done.
Qed.

Lemma handleFollowUpSubmitStart_not_array (net : Net) (s : State) :
  (forall questions, followUpQuestions s <> JArr questions) ->
  handleFollowUpSubmitStart net s s = (Throw TypeError, s, []).
Proof.
  intros Hq. unfold handleFollowUpSubmitStart. unfold_monad.
  destruct (followUpQuestions s); cbn; try done. by destruct (Hq elems).
Qed.

Lemma handleFollowUpSubmitStart_blank (net : Net) (s : State)
    (questions : list JsVal) :
  followUpQuestions s = JArr questions ->
  allAnswered s questions = false ->
  handleFollowUpSubmitStart net s s
  = (Ok None, s, [Alert "Please answer all questions before submitting."]).
Proof.
  intros Hq Hblank. unfold handleFollowUpSubmitStart, allAnswered in *.
  rewrite Hq. apply negb_false_iff in Hblank. unfold_monad.
  cbn -[filterIndexed Nat.ltb]. by rewrite Hblank.
Qed.

Lemma handleFollowUpSubmitStart_sent (net : Net) (s : State)
    (questions : list JsVal) :
  followUpQuestions s = JArr questions ->
  allAnswered s questions = true ->
  handleFollowUpSubmitStart net s s
  = (Ok (Some (mkPending AfterFollowUp
                 (net "/api/analyze" (answersRequest s questions)))),
     withIsLoading true s,
     [Post "/api/analyze" (answersRequest s questions)]).
Proof.
  intros Hq Hvalid. unfold handleFollowUpSubmitStart, allAnswered in *.
  rewrite Hq. apply negb_true_iff in Hvalid. unfold_monad.
  cbn -[filterIndexed Nat.ltb combinedAnswers]. by rewrite Hvalid.
Qed.

Lemma handleWebResearchStart_run (net : Net) (s : State) :
  handleWebResearchStart net s s
  = (Ok (Some (mkPending AfterResearch
                 (net "/api/web-research" (researchRequest s)))),
     withIsLoading true s,
     [Post "/api/web-research" (researchRequest s)]).
Proof. done. Qed.

(** The handlers cut at their [await] agree with the handlers run in one
    go: on a page with nothing in flight, an event followed at once by the
    settling of the request it sent (if it sent one) leaves the state and
    the effects of [fire], and nothing in flight. *)
Lemma settled_at_once_is_fire (e : Event) (s : State) :
  (current (fst (pageStep (Settles 0) (fst (pageStep (Does e) (mkPage s []))))),
   snd (pageStep (Does e) (mkPage s []))
   ++ snd (pageStep (Settles 0) (fst (pageStep (Does e) (mkPage s [])))))
  = fire e s
  /\ inFlight (fst (pageStep (Settles 0) (fst (pageStep (Does e) (mkPage s []))))) = [].
Proof.
  unfold fire. cbn [pageStep current inFlight].
  destruct (offered (render s) e); [| done].
  destruct e as [value | index value | net | net | net |]; cbn [begin handlerOf].
  - done.
  - done.
  - destruct (decide (trim (symptoms s) = "")) as [Hblank | Hvalid].
    { by rewrite handleSubmit_blank, handleSubmitStart_blank. }
    rewrite handleSubmit_sent, handleSubmitStart_sent by done.
    cbn [fst snd pageStep inFlight current app lookup list_lookup].
    rewrite resume_AfterSubmit.
    destruct (net _ _) as [data | error]; [| done].
    destruct (nullish data); [done |].
    destruct (truthy _); [done |]. by destruct (strictEqString _ _).
  - destruct (followUpQuestions_array_dec s) as [[questions Hq] | Hq].
    2: { by rewrite handleFollowUpSubmit_not_array,
           handleFollowUpSubmitStart_not_array. }
    destruct (allAnswered s questions) eqn:Hall.
    { rewrite (handleFollowUpSubmit_sent _ _ questions),
        (handleFollowUpSubmitStart_sent _ _ questions) by done.
      cbn [fst snd pageStep inFlight current app lookup list_lookup].
      rewrite resume_AfterFollowUp.
      destruct (net _ _) as [data | error]; [| done].
      destruct (nullish data); [done |].
      destruct (truthy _); [done |]. by destruct (strictEqString _ _). }
    by rewrite (handleFollowUpSubmit_blank _ _ questions),
      (handleFollowUpSubmitStart_blank _ _ questions).
  - rewrite handleWebResearch_run, handleWebResearchStart_run.
    cbn [fst snd pageStep inFlight current app lookup list_lookup].
    rewrite resume_AfterResearch.
    destruct (net _ _) as [data | error]; [| done]. by destruct (nullish data).
  - done.
Qed.

(** ** Pages with requests in flight *)

Lemma offered_idle (e : Event) (s : State) :
  offered (render s) e = true -> asksNetwork e = true -> isLoading s = false.
Proof.
  intros Hoffered. apply offered_component in Hoffered. revert Hoffered.
  unfold component. destruct (conversationComplete s).
  { destruct (resultsSection _); cbn; [destruct (objectKeysLength _); cbn |];
      destruct e; cbn; done. }
  destruct (showExtractedData s).
  { destruct (resultsSection _); cbn; destruct e; cbn; try done;
      by destruct (isLoading s). }
  destruct (member _ _) as [len |]; cbn; [| by destruct e].
  destruct (isZero len); cbn.
  - destruct e; cbn; try done; by destruct (isLoading s).
  - destruct (asArray _); cbn; destruct e; cbn; try done; by destruct (isLoading s).
Qed.

Lemma begin_quiet (e : Event) (s : State) :
  asksNetwork e = false ->
  begin e s s = (Ok None, fst (invoke (handlerOf e) s), []).
Proof. by destruct e. Qed.

Lemma PageInv_openPage (now : Z) : PageInv now (openPage now).
Proof. split; cbn; try done. by left. Qed.

Ltac page_done :=
  split; cbn in *;
  repeat match goal with
  | H : ?b = false |- context [?b] => rewrite H
  | H : ?b = true |- context [?b] => rewrite H
  end; cbn;
  try done; try (left; done); try (intros; congruence); auto.

Lemma pageStep_PageInv (now : Z) (pe : PageEvent) (p : Page) :
  PageInv now p -> PageInv now (fst (pageStep pe p)).
Proof.
  intros [Hthread Hflight Hexcl Hnoq]. destruct p as [s flight].
  cbn [current inFlight] in *. destruct pe as [e | index]; cbn [pageStep current inFlight].
  - destruct (offered (render s) e) eqn:Hoffered; [| done].
    pose proof (offered_idle e s Hoffered) as Hidle.
    apply offered_offeredIn in Hoffered.
    destruct e as [value | i value | net | net | net |]; cbn in Hoffered;
      cbn [asksNetwork] in *.
    + rewrite (begin_quiet (TypeSymptoms value)) by done.
      cbn. rewrite app_nil_r. split; cbn; try done.
    + rewrite (begin_quiet (TypeAnswer i value)) by done.
      cbn. rewrite app_nil_r. split; cbn; try done.
    + cbn [begin]. destruct Hoffered as (Hc & Hx & _). specialize (Hidle eq_refl).
      destruct Hflight as [[-> _] | (w & _ & Hbusy & _)]; [| congruence].
      destruct (decide (trim (symptoms s) = "")) as [Hblank | Hvalid].
      { rewrite handleSubmitStart_blank by done. split; cbn; try done. by left. }
      rewrite handleSubmitStart_sent by done. split; cbn; try done.
      right. eexists. by repeat split.
    + cbn [begin]. destruct Hoffered as (Hc & Hx & q & rest & Hq).
      specialize (Hidle eq_refl).
      destruct Hflight as [[-> _] | (w & _ & Hbusy & _)]; [| congruence].
      destruct (allAnswered s (q :: rest)) eqn:Hall.
      2: { rewrite (handleFollowUpSubmitStart_blank _ _ (q :: rest)) by done.
           split; cbn; try done. by left. }
      rewrite (handleFollowUpSubmitStart_sent _ _ (q :: rest)) by done.
      split; cbn; try done. right. eexists. by repeat split.
    + cbn [begin]. destruct Hoffered as (Hc & Hx). specialize (Hidle eq_refl).
      destruct Hflight as [[-> _] | (w & _ & Hbusy & _)]; [| congruence].
      rewrite handleWebResearchStart_run. split; cbn; try done.
      right. eexists. by repeat split.
    + destruct Hflight as [[-> Hquiet] | (w & _ & _ & Hc & _)]; [| congruence].
      rewrite (begin_quiet StartNewAnalysis) by done.
      cbn. split; cbn; try done. by left.
  - destruct Hflight as [[-> Hquiet] | (w & -> & Hbusy & Hc & Hx)].
    { cbn. split; cbn; try done. by left. }
    destruct index as [| index]; cbn [lookup list_lookup].
    2: { cbn. split; cbn; try done. right. by exists w. }
    assert (Hq : showExtractedData s = true -> followUpQuestions s = JArr []).
    { intros Hshown. apply Hnoq. rewrite Hshown. apply orb_true_r. }
    destruct w as [[| |] outcome]; cbn [waiting] in Hx.
    + rewrite resume_AfterSubmit.
      destruct outcome as [data | error]; [| page_done].
      destruct (nullish data); [page_done |].
      destruct (truthy _); [page_done |].
      destruct (strictEqString _ _); page_done.
    + rewrite resume_AfterFollowUp.
      destruct outcome as [data | error]; [| page_done].
      destruct (nullish data); [page_done |].
      destruct (truthy _); [page_done |].
      destruct (strictEqString _ _); page_done.
    + rewrite resume_AfterResearch. specialize (Hq Hx).
      destruct outcome as [data | error]; [| page_done].
      destruct (nullish data); page_done.
Qed.

Lemma runPage_PageInv (now : Z) (events : list PageEvent) (p : Page) :
  PageInv now p -> PageInv now (fst (runPage events p)).
Proof.
  revert p. induction events as [| pe rest IH]; intros p Hinv; [done |].
  cbn. pose proof (pageStep_PageInv now pe p Hinv) as Hstep.
  destruct (pageStep pe p) as [p1 log1]. specialize (IH p1 Hstep).
  by destruct (runPage rest p1) as [p2 log2].
Qed.

(** X12. However the user's actions and the settling of requests are
    interleaved, at most one request is in flight, [isLoading] is set
    exactly while one is, and while one is in flight a submission or a
    research click does nothing: no second request can start. *)
Theorem one_request_in_flight (now : Z) (events : list PageEvent) :
  length (inFlight (fst (runPage events (openPage now)))) <= 1 /\
  (isLoading (current (fst (runPage events (openPage now)))) = true <->
   inFlight (fst (runPage events (openPage now))) <> []) /\
  (forall e,
     asksNetwork e = true ->
     inFlight (fst (runPage events (openPage now))) <> [] ->
     pageStep (Does e) (fst (runPage events (openPage now)))
     = (fst (runPage events (openPage now)), [])).
Proof.
  pose proof (runPage_PageInv now events _ (PageInv_openPage now)) as Hinv.
  destruct (page_flight _ _ Hinv) as [[Hnone Hidle] | (w & Hone & Hbusy & _)].
  - rewrite Hnone, Hidle. cbn. repeat split; try done. lia.
  - rewrite Hone, Hbusy. cbn. repeat split; try done.
    intros e Hasks _. cbn [pageStep].
    destruct (offered _ e) eqn:Hoffered; [| done].
    apply offered_idle in Hoffered; [congruence | done].
Qed.

Lemma pageStep_thread (pe : PageEvent) (p : Page) :
  threadId (current (fst (pageStep pe p))) = threadId (current p) /\
  Forall (carriesThread (threadId (current p))) (snd (pageStep pe p)).
Proof.
  destruct p as [s flight]. destruct pe as [e | index]; cbn [pageStep current inFlight].
  - destruct (offered (render s) e); [| by split].
    destruct e as [value | i value | net | net | net |];
      rewrite ?begin_quiet by done; cbn [begin].
    + by split.
    + by split.
    + destruct (decide (trim (symptoms s) = "")) as [Hblank | Hvalid].
      { rewrite handleSubmitStart_blank by done. carries_done. }
      rewrite handleSubmitStart_sent by done. carries_done.
    + destruct (followUpQuestions_array_dec s) as [[questions Hq] | Hq].
      2: { by rewrite handleFollowUpSubmitStart_not_array. }
      destruct (allAnswered s questions) eqn:Hall.
      2: { rewrite (handleFollowUpSubmitStart_blank _ _ questions) by done.
           carries_done. }
      rewrite (handleFollowUpSubmitStart_sent _ _ questions) by done. carries_done.
    + rewrite handleWebResearchStart_run. carries_done.
    + by split.
  - destruct (flight !! index) as [[[| |] outcome] |]; [| | | by split].
    + rewrite resume_AfterSubmit.
      destruct outcome as [data | error];
        [destruct (nullish data); [| destruct (truthy _); [| destruct (strictEqString _ _)]] |];
        carries_done.
    + rewrite resume_AfterFollowUp.
      destruct outcome as [data | error];
        [destruct (nullish data); [| destruct (truthy _); [| destruct (strictEqString _ _)]] |];
        carries_done.
    + rewrite resume_AfterResearch.
      destruct outcome as [data | error]; [destruct (nullish data) |]; carries_done.
Qed.

Lemma runPage_thread (events : list PageEvent) (p : Page) :
  threadId (current (fst (runPage events p))) = threadId (current p) /\
  Forall (carriesThread (threadId (current p))) (snd (runPage events p)).
Proof.
  revert p. induction events as [| pe rest IH]; intros p; [by split |].
  cbn. destruct (pageStep_thread pe p) as [Hid Hlog].
  destruct (pageStep pe p) as [p1 log1]. cbn in Hid, Hlog.
  destruct (IH p1) as [Hid' Hlog']. destruct (runPage rest p1) as [p2 log2].
  cbn in *. rewrite Hid in *. split; [done |]. by apply Forall_app.
Qed.

(** X13. The exclusion of the two flags and the thread identifier do not
    depend on handlers running to completion: however typing, submissions
    and the settling of requests are interleaved, the two flags are never
    both set, there is no follow-up question while [conversationComplete]
    is set, the thread identifier is the initial one, and every request
    carries it. *)
Theorem interleaving_keeps_flags_and_thread (now : Z) (events : list PageEvent) :
  (conversationComplete (current (fst (runPage events (openPage now))))
   && showExtractedData (current (fst (runPage events (openPage now)))) = false) /\
  (conversationComplete (current (fst (runPage events (openPage now)))) = true ->
   followUpQuestions (current (fst (runPage events (openPage now)))) = JArr []) /\
  threadId (current (fst (runPage events (openPage now))))
    = threadId (initialState now) /\
  Forall (carriesThread (threadId (initialState now)))
         (snd (runPage events (openPage now))).
Proof.
  pose proof (runPage_PageInv now events _ (PageInv_openPage now)) as Hinv.
  split; [apply Hinv |]. split.
  { intros Hc. apply (page_no_questions _ _ Hinv). by rewrite Hc. }
  apply (runPage_thread events (openPage now)).
Qed.

(** ** Trying again after a failure *)

(** X14. In a session, a submission or a research click that the network
    does not answer leaves the state exactly as it was, [isLoading]
    included: the user can try again, and the new attempt starts from the
    same state as the failed one. *)
Theorem failed_attempt_leaves_no_trace (now : Z) (s : State) (failing : Net) :
  reachable now s ->
  neverAnswers failing ->
  fst (fire (SubmitSymptoms failing) s) = s /\
  fst (fire (SubmitAnswers failing) s) = s /\
  fst (fire (StartResearch failing) s) = s.
Proof.
  intros Hreach Hfails. apply reachable_Inv in Hreach as [_ Hidle _ _ _ _].
  assert (Hsame : withIsLoading false s = s).
  { destruct s. cbn in Hidle. by rewrite Hidle. }
  unfold fire. repeat split.
  - destruct (offered _ _); [| done]. cbn [handlerOf].
    destruct (decide (trim (symptoms s) = "")) as [Hblank | Hvalid].
    { by rewrite handleSubmit_blank. }
    rewrite handleSubmit_sent by done.
    by destruct (Hfails "/api/analyze" (symptomsRequest s)) as [error ->].
  - destruct (offered _ _); [| done]. cbn [handlerOf].
    destruct (followUpQuestions_array_dec s) as [[questions Hq] | Hq].
    2: { by rewrite handleFollowUpSubmit_not_array. }
    destruct (allAnswered s questions) eqn:Hall.
    2: { by rewrite (handleFollowUpSubmit_blank _ _ questions). }
    rewrite (handleFollowUpSubmit_sent _ _ questions) by done.
    by destruct (Hfails "/api/analyze" (answersRequest s questions)) as [error ->].
  - destruct (offered _ _); [| done]. cbn [handlerOf].
    rewrite handleWebResearch_run.
    by destruct (Hfails "/api/web-research" (researchRequest s)) as [error ->].
Qed.

(** ** The further properties at work on the example session *)

Lemma charCount_is_length_witness :
  render Example.typed
    = Ok (SymptomForm "I have a headache and mild fever since yesterday" 48 false) /\
  48 = String.length "I have a headache and mild fever since yesterday".
Proof.
  split; [reflexivity |].
  destruct (charCount_is_length 1700000000000 Example.typing) as [_ Hform].
  exact (proj2 (Hform _ 48 false eq_refl)).
Defined.

Lemma handleSubmit_sends_unless_blank_witness :
  allWhiteSpace (symptoms Example2.blank) = true /\
  invoke (handleSubmit Example.offline) Example2.blank
    = (Example2.blank, [Alert "Please describe your symptoms."]) /\
  allWhiteSpace (symptoms Example.typed) = false /\
  exists alerts,
    snd (invoke (handleSubmit Example.offline) Example.typed)
      = Post "/api/analyze"
             (JObj [("symptoms",
                     JStr "I have a headache and mild fever since yesterday");
                    ("thread_id", JStr "thread_1700000000000")])
        :: (Alert <$> alerts)
    /\ length alerts <= 1.
Proof.
  destruct (handleSubmit_sends_unless_blank Example.offline Example2.blank)
    as [Hblank _].
  destruct (handleSubmit_sends_unless_blank Example.offline Example.typed)
    as [_ Hsent].
  split; [reflexivity |]. split; [exact (Hblank eq_refl) |].
  split; [reflexivity |]. exact (Hsent eq_refl).
Defined.

Lemma answer_change_shows_in_its_input_witness :
  render Example.asked
    = Ok (FollowUpForm [(JStr "How severe is the fever?", "")] false) /\
  render (fst (invoke (handleQuestionAnswerChange 0 "mild") Example.asked))
    = Ok (FollowUpForm [(JStr "How severe is the fever?", "mild")] false).
Proof.
  split; [reflexivity |].
  exact (proj2 (answer_change_shows_in_its_input Example.asked 0 "mild"
                  [(JStr "How severe is the fever?", "")] false eq_refl)).
Defined.

Lemma typed_answers_are_sent_witness :
  render Example.asked
    = Ok (FollowUpForm [(JStr "How severe is the fever?", "")] false) /\
  exists alerts,
    snd (run (typeAnswersFrom 0 ["mild"] ++ [SubmitAnswers Example.offline])
             Example.asked)
      = Post "/api/analyze"
             (JObj [("symptoms", JStr ("Q: How severe is the fever?" +:+ LF +:+ "A: mild"));
                    ("thread_id", JStr "thread_1700000000000")])
        :: (Alert <$> alerts).
Proof.
  split; [reflexivity |].
  apply (typed_answers_are_sent Example.offline Example.asked
           [(JStr "How severe is the fever?", "")] ["mild"] eq_refl eq_refl).
  apply List.Forall_cons; [reflexivity | apply List.Forall_nil].
Defined.


Lemma stage_changes_along_the_flow_witness :
  stage Example.extracted = Extracted /\
  stage (fst (fire (StartResearch (Example.replyWith Example.researchReply))
                   Example.extracted)) = Complete /\
  (asksNetwork (StartResearch (Example.replyWith Example.researchReply)) = true \/
   StartResearch (Example.replyWith Example.researchReply) = StartNewAnalysis).
Proof.
  split; [reflexivity |]. split; [reflexivity |].
  apply (stage_changes_along_the_flow
           (StartResearch (Example.replyWith Example.researchReply))
           Example.extracted).
  discriminate.
Defined.

Lemma results_only_after_extraction_witness :
  stage (fst (run Example2.restarting (initialState 1700000000000))) = Collecting /\
  extractedData (fst (run Example2.restarting (initialState 1700000000000))) = JObj [] /\
  webResearchResults (fst (run Example2.restarting (initialState 1700000000000)))
    = JObj [].
Proof.
  split; [reflexivity |].
  destruct (results_only_after_extraction 1700000000000 Example2.restarting)
    as [Hclean _].
  exact (Hclean eq_refl).
Defined.

Lemma debug_endpoint_never_called_witness :
  Post "/api/web-research" (researchRequest Example.extracted)
    ∈ snd (run Example.completing Example.opened) /\
  Post "/api/research-debug" (JObj [("symptom", JStr "headache")])
    ∉ snd (run Example.completing Example.opened).
Proof.
  destruct (debug_endpoint_never_called Example.completing Example.opened)
    as [_ Hnever].
  split.
  - vm_compute. apply list_elem_of_further, list_elem_of_here.
  - apply (Hnever Example.offline (JObj [("symptom", JStr "headache")])
             Example.opened).
    vm_compute. apply list_elem_of_here.
Defined.


Lemma one_request_in_flight_witness :
  inFlight (fst (runPage Example2.waiting (openPage 1700000000000))) <> [] /\
  isLoading (current (fst (runPage Example2.waiting (openPage 1700000000000)))) = true /\
  pageStep (Does (SubmitSymptoms Example.offline))
           (fst (runPage Example2.waiting (openPage 1700000000000)))
  = (fst (runPage Example2.waiting (openPage 1700000000000)), []).
Proof.
  assert (Hflight : inFlight (fst (runPage Example2.waiting (openPage 1700000000000)))
                    <> []) by discriminate.
  destruct (one_request_in_flight 1700000000000 Example2.waiting)
    as (_ & Hbusy & Hblocked).
  split; [exact Hflight |]. split; [exact (proj2 Hbusy Hflight) |].
  exact (Hblocked (SubmitSymptoms Example.offline) eq_refl Hflight).
Defined.

Lemma interleaving_keeps_flags_and_thread_witness :
  conversationComplete
    (current (fst (runPage Example2.replied (openPage 1700000000000)))) = true /\
  followUpQuestions
    (current (fst (runPage Example2.replied (openPage 1700000000000)))) = JArr [].
Proof.
  destruct (interleaving_keeps_flags_and_thread 1700000000000 Example2.replied)
    as (_ & Hquestions & _).
  split; [reflexivity | exact (Hquestions eq_refl)].
Defined.

Lemma failed_attempt_leaves_no_trace_witness :
  reachable 1700000000000 Example.typed /\
  neverAnswers Example.offline /\
  fst (fire (SubmitSymptoms Example.offline) Example.typed) = Example.typed.
Proof.
  pose proof (reachable_run 1700000000000 Example.typing
              : reachable _ Example.typed) as Hreach.
  assert (Hfails : neverAnswers Example.offline)
    by (intros url body; by exists NoResponse).
  split; [exact Hreach |]. split; [exact Hfails |].
  exact (proj1 (failed_attempt_leaves_no_trace 1700000000000 Example.typed
                  Example.offline Hreach Hfails)).
Defined.
